(** * CardioEye: ingestion, alert classification, resolution and live registry

    A shallow embedding of the server core of CardioEye:
    - [routes]  : the Express handlers of [registerRoutes]
                  ([POST /api/ecg/submit],
                  [PATCH /api/doctor/alerts/:alertId/resolve]) and the
                  WebSocket connection handler with its [wsClients] map;
    - [storage] : the [DatabaseStorage] methods these handlers call;
    - [schema]  : the rows of the tables they touch;
    - [Queries], [Endpoints] : the read side of the storage, the settings
                  upsert, the verification codes, and the handlers that use
                  them (patient and doctor lists, settings, registration);
    - [Run]     : the handlers and socket events as a transition system;
    - [NotificationCenter] : the list of notifications the client keeps.

    Modelling conventions.
    - A table is the list of its rows, in insertion order; a query with a
      [where] clause is a [filter], and [const [row] = ...] is [head].
    - A nullable column is an [option]; a JavaScript value that may be
      [undefined] (an absent body field, the result of [?.]) is an [option]
      too, and the operators [||], [===], [!==] and template interpolation
      are written out on such values in module [JS].
    - [heartRate] is an integer ([Z]); the raw waveform is an opaque payload.
    - The database clock ([defaultNow()], [new Date()]) and the identifiers
      it generates ([gen_random_uuid()]) are arguments of the handlers.
    - A write the schema refuses is [None], and the handler then takes its
      [catch] branch (500) with nothing changed. The constraints modelled
      are those an input of the handlers can violate: the range of the
      [integer] columns (heart rate, thresholds), the foreign keys
      [resolved_by], [used_by] and [alert_settings.patient_id], the
      uniqueness of a code. Identifiers the database draws are taken to be
      accepted.
    - A socket's [readyState] leaves [OPEN] in a step of its own
      ([ws_leaves_open]); the [close] listener runs later.
    - Writes to a socket and calls of [sendNotifications] are recorded in an
      effect trace, so that "nothing was delivered" can be stated. *)

From Stdlib Require Import ZArith Strings.Ascii Numbers.DecimalString.
From stdpp Require Import gmap strings list fin_maps sorting.

Open Scope Z_scope.

(** ** JavaScript primitives used by the handlers *)

Module JS.

(** [v || d] on a number that may be [null]/[undefined]: the falsy numbers
    are [0] (and [NaN], which an integer column never holds). *)
Definition or_num (v : option Z) (d : Z) : Z :=
  match v with
  | Some x => if x =? 0 then d else x
  | None => d
  end.

(** [v || d] on a string that may be [undefined]: the empty string is
    falsy. *)
Definition or_str (v : option string) (d : string) : string :=
  match v with
  | Some s => if String.eqb s "" then d else s
  | None => d
  end.

(** Truthiness of a possibly absent string ([if (userId)],
    [if (patient.doctorId)]). *)
Definition truthy_str (v : option string) : option string :=
  match v with
  | Some s => if String.eqb s "" then None else Some s
  | None => None
  end.

(** Truthiness of a possibly absent boolean. *)
Definition truthy_bool (v : option bool) : bool :=
  match v with
  | Some b => b
  | None => false
  end.

(** [v === lit] for a possibly [undefined] string [v]. *)
Definition strict_eq (v : option string) (lit : string) : bool :=
  match v with
  | Some s => String.eqb s lit
  | None => false
  end.

(** [`${v}`] for a possibly [undefined] string. *)
Definition interp_str (v : option string) : string :=
  match v with
  | Some s => s
  | None => "undefined"
  end.

(** [`${n}`] for an integer: its decimal numeral (JavaScript prints it so
    for every magnitude an integer column can hold). *)
Definition interp_num (n : Z) : string :=
  NilZero.string_of_int (Z.to_int n).

Fixpoint drop_chars (n : nat) (s : string) : string :=
  match n, s with
  | O, _ => s
  | S n', String _ s' => drop_chars n' s'
  | S _, EmptyString => EmptyString
  end.

(** [s.replace(pat, rep)] with a string pattern: only the FIRST occurrence
    of [pat] is replaced. *)
Fixpoint replace (pat rep s : string) : string :=
  if String.prefix pat s then rep +:+ drop_chars (String.length pat) s
  else match s with
       | EmptyString => EmptyString
       | String c s' => String c (replace pat rep s')
       end.

Definition upper_char (c : Ascii.ascii) : Ascii.ascii :=
  let n := Ascii.N_of_ascii c in
  if ((97 <=? n) && (n <=? 122))%N then Ascii.ascii_of_N (n - 32) else c.

(** [s.toUpperCase()] on ASCII text. *)
Fixpoint toUpperCase (s : string) : string :=
  match s with
  | EmptyString => EmptyString
  | String c s' => String (upper_char c) (toUpperCase s')
  end.

End JS.

(** ** shared/schema.ts *)

Module Schema.

Inductive UserRole := patient_role | doctor_role | admin_role.

Inductive AlertSeverity := low | medium | high | critical.

#[global] Instance UserRole_eq_dec : EqDecision UserRole.
Proof. solve_decision. Defined.

#[global] Instance AlertSeverity_eq_dec : EqDecision AlertSeverity.
Proof. solve_decision. Defined.

Record User := {
  user_id : string;
  user_firstName : option string;
  user_lastName : option string;
  user_role : UserRole;
  user_mobileNumber : option string
}.

Record Patient := {
  patient_id : string;
  patient_userId : string;
  patient_doctorId : option string
}.

(** [Patient & { user: User }] *)
Record PatientWithUser := {
  pw_patient : Patient;
  pw_user : User
}.

Record EcgReading := {
  reading_id : string;
  reading_patientId : string;
  reading_heartRate : Z;
  reading_rhythm : option string;
  reading_ecgData : string;
  reading_timestamp : Z;
  reading_isNormal : bool;
  reading_alertTriggered : bool;
  reading_createdAt : Z
}.

Record InsertEcgReading := {
  ins_r_patientId : string;
  ins_r_heartRate : Z;
  ins_r_rhythm : string;
  ins_r_ecgData : string;
  ins_r_isNormal : bool;
  ins_r_alertTriggered : bool
}.

Record HealthAlert := {
  alert_id : string;
  alert_patientId : string;
  alert_ecgReadingId : option string;
  alert_alertType : string;
  alert_severity : AlertSeverity;
  alert_message : string;
  alert_isResolved : bool;
  alert_resolvedBy : option string;
  alert_resolvedAt : option Z;
  alert_createdAt : Z
}.

Record InsertHealthAlert := {
  ins_a_patientId : string;
  ins_a_ecgReadingId : string;
  ins_a_alertType : string;
  ins_a_severity : AlertSeverity;
  ins_a_message : string
}.

Record AlertSettings := {
  settings_id : string;
  settings_patientId : string;
  highHeartRateThreshold : option Z;
  lowHeartRateThreshold : option Z;
  enableIrregularRhythmAlerts : option bool;
  enableWhatsAppAlerts : option bool;
  enableSmsAlerts : option bool
}.

End Schema.

(** ** server/storage.ts *)

Module Storage.
Import Schema.

(** The tables read or written by the modelled handlers. *)
Record Db := {
  users : list User;
  patients : list Patient;
  ecgReadings : list EcgReading;
  healthAlerts : list HealthAlert;
  alertSettings : list AlertSettings
}.

Definition getUser (db : Db) (id : string) : option User :=
  head (filter (λ u, user_id u = id) (users db)).

(** [patients INNER JOIN users ON patients.userId = users.id
    WHERE patients.id = patientId], first row. *)
Definition getPatientWithUser (db : Db) (patientId : string)
  : option PatientWithUser :=
  head (p ← filter (λ p, patient_id p = patientId) (patients db);
        u ← filter (λ u, user_id u = patient_userId p) (users db);
        [ {| pw_patient := p; pw_user := u |} ]).

Definition getAlertSettingsByPatientId (db : Db) (patientId : string)
  : option AlertSettings :=
  head (filter (λ s, settings_patientId s = patientId) (alertSettings db)).

(** The values an [integer] (32-bit) column holds. *)
Definition fits_int4 (x : Z) : bool :=
  (-2147483648 <=? x) && (x <=? 2147483647).

(** [insert(ecgReadings).values(reading).returning()]: the database
    supplies the identifier and both timestamps, and refuses ([None]) a
    heart rate that the [integer] column [heart_rate] cannot hold. *)
Definition createEcgReading (now : Z) (id : string) (r : InsertEcgReading)
    (db : Db) : option (EcgReading * Db) :=
  let row := {| reading_id := id;
                reading_patientId := ins_r_patientId r;
                reading_heartRate := ins_r_heartRate r;
                reading_rhythm := Some (ins_r_rhythm r);
                reading_ecgData := ins_r_ecgData r;
                reading_timestamp := now;
                reading_isNormal := ins_r_isNormal r;
                reading_alertTriggered := ins_r_alertTriggered r;
                reading_createdAt := now |} in
  if fits_int4 (ins_r_heartRate r)
  then Some (row, {| users := users db;
                     patients := patients db;
                     ecgReadings := ecgReadings db ++ [row];
                     healthAlerts := healthAlerts db;
                     alertSettings := alertSettings db |})
  else None.

(** [insert(healthAlerts).values(alert).returning()]: the columns not
    given take their defaults ([isResolved] false, the rest null). *)
Definition createHealthAlert (now : Z) (id : string) (a : InsertHealthAlert)
    (db : Db) : HealthAlert * Db :=
  let row := {| alert_id := id;
                alert_patientId := ins_a_patientId a;
                alert_ecgReadingId := Some (ins_a_ecgReadingId a);
                alert_alertType := ins_a_alertType a;
                alert_severity := ins_a_severity a;
                alert_message := ins_a_message a;
                alert_isResolved := false;
                alert_resolvedBy := None;
                alert_resolvedAt := None;
                alert_createdAt := now |} in
  (row, {| users := users db;
           patients := patients db;
           ecgReadings := ecgReadings db;
           healthAlerts := healthAlerts db ++ [row];
           alertSettings := alertSettings db |}).

(** The [set({...})] of [markAlertAsResolved] applied to one row. *)
Definition set_resolved (resolvedBy : string) (now : Z) (a : HealthAlert)
  : HealthAlert :=
  {| alert_id := alert_id a;
     alert_patientId := alert_patientId a;
     alert_ecgReadingId := alert_ecgReadingId a;
     alert_alertType := alert_alertType a;
     alert_severity := alert_severity a;
     alert_message := alert_message a;
     alert_isResolved := true;
     alert_resolvedBy := Some resolvedBy;
     alert_resolvedAt := Some now;
     alert_createdAt := alert_createdAt a |}.

(** [update(healthAlerts).set({...}).where(eq(healthAlerts.id, alertId))]:
    every row whose id matches is rewritten; with no such row the
    statement updates nothing and returns normally. [resolved_by]
    references [users.id]: when a row would be rewritten with a resolver
    that is no user, the statement is refused ([None]). *)
Definition markAlertAsResolved (now : Z) (alertId resolvedBy : string)
    (db : Db) : option Db :=
  match filter (λ a, alert_id a = alertId) (healthAlerts db),
        filter (λ u, user_id u = resolvedBy) (users db) with
  | _ :: _, [] => None
  | _, _ =>
    Some {| users := users db;
            patients := patients db;
            ecgReadings := ecgReadings db;
            healthAlerts :=
              (λ a, if decide (alert_id a = alertId)
                    then set_resolved resolvedBy now a else a)
              <$> healthAlerts db;
            alertSettings := alertSettings db |}
  end.

End Storage.

(** ** server/routes.ts *)

Module Routes.
Import Schema Storage.

(** A WebSocket object is identified by a handle; every connection brings
    a handle of its own. *)
Definition WebSocket := nat.

(** The payload of [broadcastAlert], before [JSON.stringify]. *)
Record AlertMessage := {
  msg_alert : HealthAlert;
  msg_patient_id : string;
  msg_patient_name : string
}.

Inductive Effect :=
| WsSend (ws : WebSocket) (m : AlertMessage)
| SendNotifications (patientId alertId : string).

(** The state the handlers share: the database, the module-level
    [wsClients] map, the [close]/[error] listeners installed on each socket
    (a listener is a closure over the [userId] of its connection), the
    sockets whose [readyState] is [OPEN], and the effects performed. *)
Record World := {
  db : Db;
  wsClients : gmap string WebSocket;
  listeners : gmap WebSocket string;
  openSockets : gset WebSocket;
  trace : list Effect
}.

Definition with_db (d : Db) (w : World) : World :=
  {| db := d; wsClients := wsClients w; listeners := listeners w;
     openSockets := openSockets w; trace := trace w |}.

Definition with_wsClients (m : gmap string WebSocket) (w : World) : World :=
  {| db := db w; wsClients := m; listeners := listeners w;
     openSockets := openSockets w; trace := trace w |}.

Definition with_listeners (m : gmap WebSocket string) (w : World) : World :=
  {| db := db w; wsClients := wsClients w; listeners := m;
     openSockets := openSockets w; trace := trace w |}.

Definition with_openSockets (s : gset WebSocket) (w : World) : World :=
  {| db := db w; wsClients := wsClients w; listeners := listeners w;
     openSockets := s; trace := trace w |}.

Definition perform (e : Effect) (w : World) : World :=
  {| db := db w; wsClients := wsClients w; listeners := listeners w;
     openSockets := openSockets w; trace := trace w ++ [e] |}.

Inductive ResponseBody :=
| Message (m : string)
| Success
| SuccessReading (reading : EcgReading).

Record Response := {
  status : Z;
  body : ResponseBody
}.

Definition respond (code : Z) (b : ResponseBody) : Response :=
  {| status := code; body := b |}.

(** [req.body] of [POST /api/ecg/submit]. *)
Record SubmitBody := {
  body_patientId : string;
  body_heartRate : Z;
  body_rhythm : option string;
  body_ecgData : string;
  body_deviceId : option string
}.

(** *** POST /api/ecg/submit *)

(** [heartRate >= 50 && heartRate <= 120 && rhythm === 'normal'] *)
Definition isNormal (heartRate : Z) (rhythm : option string) : bool :=
  (50 <=? heartRate) && (heartRate <=? 120) && JS.strict_eq rhythm "normal".

(** The [let alertType / let severity] block with its [if] chain. *)
Definition alertDecision (heartRate : Z) (rhythm : option string)
    (alertSettings : option AlertSettings) : string * AlertSeverity :=
  if heartRate >? JS.or_num (alertSettings ≫= highHeartRateThreshold) 120
  then ("high_heart_rate", if heartRate >? 140 then critical else high)
  else if heartRate <? JS.or_num (alertSettings ≫= lowHeartRateThreshold) 50
  then ("low_heart_rate", if heartRate <? 40 then critical else high)
  else if negb (JS.strict_eq rhythm "normal")
  then ("irregular_rhythm", high)
  else ("abnormal_reading", medium).

(** The template literal of the [message] field. *)
Definition alertMessage (alertType : string) (heartRate : Z)
    (rhythm : option string) : string :=
  JS.toUpperCase (JS.replace "_" " " alertType)
  +:+ ": Heart rate " +:+ JS.interp_num heartRate
  +:+ " BPM, Rhythm: " +:+ JS.interp_str rhythm.

(** [`${v}`] for a nullable column. *)
Definition interp_null (v : option string) : string :=
  match v with
  | Some s => s
  | None => "null"
  end.

(** [wsClients.get(id)] followed by the [readyState === OPEN] test and
    [send]. *)
Definition send_to (id : string) (m : AlertMessage) (w : World) : World :=
  match wsClients w !! id with
  | Some ws => if decide (ws ∈ openSockets w) then perform (WsSend ws m) w
               else w
  | None => w
  end.

Definition broadcastAlert (alert : HealthAlert) (patient : PatientWithUser)
    (w : World) : World :=
  let message :=
    {| msg_alert := alert;
       msg_patient_id := patient_id (pw_patient patient);
       msg_patient_name :=
         interp_null (user_firstName (pw_user patient)) +:+ " "
         +:+ interp_null (user_lastName (pw_user patient)) |} in
  let w1 := send_to (patient_userId (pw_patient patient)) message w in
  match JS.truthy_str (patient_doctorId (pw_patient patient)) with
  | Some doctorId => send_to doctorId message w1
  | None => w1
  end.

(** The Twilio calls are commented out in the source: the function only
    logs that it ran. *)
Definition sendNotifications (patient : PatientWithUser)
    (alert : HealthAlert) (w : World) : World :=
  perform (SendNotifications (patient_id (pw_patient patient))
             (alert_id alert)) w.

Definition ecg_submit (now : Z) (readingId alertId : string)
    (req : SubmitBody) (w : World) : Response * World :=
  let patientId := body_patientId req in
  let heartRate := body_heartRate req in
  let rhythm := body_rhythm req in
  match getPatientWithUser (db w) patientId with
  | None => (respond 404 (Message "Patient not found"), w)
  | Some patient =>
    let normal := isNormal heartRate rhythm in
    match createEcgReading now readingId
            {| ins_r_patientId := patientId;
               ins_r_heartRate := heartRate;
               ins_r_rhythm := JS.or_str rhythm "normal";
               ins_r_ecgData := body_ecgData req;
               ins_r_isNormal := normal;
               ins_r_alertTriggered := negb normal |} (db w) with
    | None => (respond 500 (Message "Failed to submit ECG data"), w)
    | Some (reading, db1) =>
    let w1 := with_db db1 w in
    let w2 :=
      if negb normal then
        let alertSettings := getAlertSettingsByPatientId db1 patientId in
        let '(alertType, severity) :=
          alertDecision heartRate rhythm alertSettings in
        let '(alert, db2) :=
          createHealthAlert now alertId
            {| ins_a_patientId := patientId;
               ins_a_ecgReadingId := reading_id reading;
               ins_a_alertType := alertType;
               ins_a_severity := severity;
               ins_a_message := alertMessage alertType heartRate rhythm |}
            db1 in
        let w2 := with_db db2 w1 in
        let w3 :=
          if JS.truthy_bool (alertSettings ≫= enableWhatsAppAlerts)
             || JS.truthy_bool (alertSettings ≫= enableSmsAlerts)
          then sendNotifications patient alert w2
          else w2 in
        broadcastAlert alert patient w3
      else w1 in
    (respond 200 (SuccessReading reading), w2)
    end
  end.

(** *** PATCH /api/doctor/alerts/:alertId/resolve

    [sub] is the authenticated subject ([req.user.claims.sub]). *)
Definition alerts_resolve (now : Z) (sub alertId : string) (w : World)
  : Response * World :=
  match getUser (db w) sub with
  | Some user =>
    if decide (user_role user = doctor_role)
    then match markAlertAsResolved now alertId (user_id user) (db w) with
         | Some db' => (respond 200 Success, with_db db' w)
         | None => (respond 500 (Message "Failed to resolve alert"), w)
         end
    else (respond 403 (Message "Doctor access required"), w)
  | None => (respond 403 (Message "Doctor access required"), w)
  end.

(** *** The WebSocket server *)

(** [wss.on('connection', ...)]: [userId] is the query parameter, [null]
    when absent. *)
Definition ws_on_connection (ws : WebSocket) (userId : option string)
    (w : World) : World :=
  let w0 := with_openSockets ({[ws]} ∪ openSockets w) w in
  match JS.truthy_str userId with
  | Some uid =>
    with_listeners (<[ws := uid]> (listeners w0))
      (with_wsClients (<[uid := ws]> (wsClients w0)) w0)
  | None => w0
  end.

(** The [readyState] of socket [ws] leaves [OPEN] (the peer went away, or
    [close()] was called): the library does this before it emits
    [close]. *)
Definition ws_leaves_open (ws : WebSocket) (w : World) : World :=
  with_openSockets (openSockets w ∖ {[ws]}) w.

(** The [close] event on socket [ws]: its listener, if one was installed,
    runs [wsClients.delete(userId)]. *)
Definition ws_on_close (ws : WebSocket) (w : World) : World :=
  match listeners w !! ws with
  | Some uid => with_wsClients (delete uid (wsClients w)) w
  | None => w
  end.

(** The [error] event on socket [ws]. *)
Definition ws_on_error (ws : WebSocket) (w : World) : World :=
  match listeners w !! ws with
  | Some uid => with_wsClients (delete uid (wsClients w)) w
  | None => w
  end.

End Routes.

(** ** A small hospital, used to run the handlers on concrete requests *)

Module Fixture.
Import Schema Storage Routes.

Definition ada : User :=
  {| user_id := "u-ada"; user_firstName := Some "Ada";
     user_lastName := Some "Byron"; user_role := patient_role;
     user_mobileNumber := None |}.

Definition grace : User :=
  {| user_id := "u-grace"; user_firstName := Some "Grace";
     user_lastName := Some "Hopper"; user_role := doctor_role;
     user_mobileNumber := None |}.

Definition ada_patient : Patient :=
  {| patient_id := "p-ada"; patient_userId := "u-ada";
     patient_doctorId := None |}.

(** A settings row holding the given thresholds. *)
Definition ada_settings (hi lo : option Z) : AlertSettings :=
  {| settings_id := "s-ada"; settings_patientId := "p-ada";
     highHeartRateThreshold := hi; lowHeartRateThreshold := lo;
     enableIrregularRhythmAlerts := Some true;
     enableWhatsAppAlerts := Some false;
     enableSmsAlerts := Some false |}.

Definition hospital (settings : list AlertSettings) : Db :=
  {| users := [ada; grace]; patients := [ada_patient];
     ecgReadings := []; healthAlerts := []; alertSettings := settings |}.

(** [Patient & { user }] as [getPatientWithUser] returns it for Ada. *)
Definition ada_record : PatientWithUser :=
  {| pw_patient := ada_patient; pw_user := ada |}.

(** Nobody connected, nothing recorded yet. *)
Definition world (settings : list AlertSettings) : World :=
  {| db := hospital settings; wsClients := ∅; listeners := ∅;
     openSockets := ∅; trace := [] |}.

Definition submission (patientId : string) (heartRate : Z)
    (rhythm : option string) : SubmitBody :=
  {| body_patientId := patientId; body_heartRate := heartRate;
     body_rhythm := rhythm; body_ecgData := "[0.1,0.4,1.2]";
     body_deviceId := None |}.

(** Ada has raised her high threshold to 150. *)
Definition personal_world : World :=
  world [ada_settings (Some 150) (Some 50)].

(** Ada's row holds 0 for both thresholds. *)
Definition zeroed_world : World :=
  world [ada_settings (Some 0) (Some 0)].

(** The world after Ada's device reported 150 BPM: one unresolved alert,
    [a-1]. *)
Definition world_after_alert : World :=
  (ecg_submit 1000 "r-1" "a-1" (submission "p-ada" 150 (Some "normal"))
     (world [])).2.

(** Ada opens the dashboard in one tab (socket 1), then in a second one
    (socket 2). *)
Definition two_tabs : World :=
  ws_on_connection 2%nat (Some "u-ada")
    (ws_on_connection 1%nat (Some "u-ada") (world [])).

End Fixture.

(** ** What the specification says, in its own words *)

Module Spec.
Import Schema.

(** "the stored threshold if it is non-zero and present, else the
    default" *)
Definition threshold_in_force (stored : option Z) (default : Z) : Z :=
  match stored with
  | Some t => if decide (t = 0) then default else t
  | None => default
  end.

(** The four-step, first-match-wins decision table, for thresholds [hi]
    and [lo]. *)
Definition first_match_policy (hi lo heartRate : Z)
    (rhythm : option string) (type : string) (severity : AlertSeverity)
  : Prop :=
  (heartRate > hi →
     type = "high_heart_rate" ∧
     severity = if decide (heartRate > 140) then critical else high) ∧
  (heartRate ≤ hi → heartRate < lo →
     type = "low_heart_rate" ∧
     severity = if decide (heartRate < 40) then critical else high) ∧
  (heartRate ≤ hi → lo ≤ heartRate → rhythm ≠ Some "normal" →
     type = "irregular_rhythm" ∧ severity = high) ∧
  (heartRate ≤ hi → lo ≤ heartRate → rhythm = Some "normal" →
     type = "abnormal_reading" ∧ severity = medium).

(** "default settings": the subject has no settings row, or a row holding
    the schema defaults 120 and 50. *)
Definition default_settings (settings : option AlertSettings) : Prop :=
  match settings with
  | None => True
  | Some row => highHeartRateThreshold row = Some 120
                ∧ lowHeartRateThreshold row = Some 50
  end.

(** "sets isResolved = true, the resolver identity, and the resolution
    timestamp", the row being otherwise the same. *)
Definition resolved_by (who : string) (when : Z)
    (before after : HealthAlert) : Prop :=
  alert_isResolved after = true
  ∧ alert_resolvedBy after = Some who
  ∧ alert_resolvedAt after = Some when
  ∧ alert_id after = alert_id before
  ∧ alert_patientId after = alert_patientId before
  ∧ alert_ecgReadingId after = alert_ecgReadingId before
  ∧ alert_alertType after = alert_alertType before
  ∧ alert_severity after = alert_severity before
  ∧ alert_message after = alert_message before
  ∧ alert_createdAt after = alert_createdAt before.

(** "never reverting to unresolved" *)
Definition stays_resolved (before after : HealthAlert) : Prop :=
  alert_id after = alert_id before
  ∧ (alert_isResolved before = true → alert_isResolved after = true).

Definition underscore_to_space (c : Ascii.ascii) : Ascii.ascii :=
  if Ascii.eqb c "_" then " "%char else c.

(** "with every underscore replaced by a space" *)
Fixpoint underscores_to_spaces (s : string) : string :=
  match s with
  | EmptyString => EmptyString
  | String c s' => String (underscore_to_space c) (underscores_to_spaces s')
  end.

(** "{TYPE_WITH_SPACES_UPPERCASE}: Heart rate {heartRate} BPM,
    Rhythm: {rhythm}" *)
Definition message_format (type : string) (heartRate : Z)
    (rhythm : option string) : string :=
  JS.toUpperCase (underscores_to_spaces type)
  +:+ ": Heart rate " +:+ JS.interp_num heartRate
  +:+ " BPM, Rhythm: " +:+ JS.interp_str rhythm.

End Spec.

(** ** The rows a submission inserts *)

Module Rows.
Import Schema Storage Routes.

(** The alert row an abnormal submission inserts. *)
Definition alert_row (now : Z) (readingId alertId : string)
    (req : SubmitBody) (settings : option AlertSettings) : HealthAlert :=
  let d := alertDecision (body_heartRate req) (body_rhythm req) settings in
  {| alert_id := alertId;
     alert_patientId := body_patientId req;
     alert_ecgReadingId := Some readingId;
     alert_alertType := d.1;
     alert_severity := d.2;
     alert_message :=
       alertMessage d.1 (body_heartRate req) (body_rhythm req);
     alert_isResolved := false;
     alert_resolvedBy := None;
     alert_resolvedAt := None;
     alert_createdAt := now |}.

(** The reading row a submission inserts. *)
Definition reading_row (now : Z) (readingId : string) (req : SubmitBody)
  : EcgReading :=
  let normal := isNormal (body_heartRate req) (body_rhythm req) in
  {| reading_id := readingId;
     reading_patientId := body_patientId req;
     reading_heartRate := body_heartRate req;
     reading_rhythm := Some (JS.or_str (body_rhythm req) "normal");
     reading_ecgData := body_ecgData req;
     reading_timestamp := now;
     reading_isNormal := normal;
     reading_alertTriggered := negb normal;
     reading_createdAt := now |}.

(** The alert table after a resolution the database accepted. *)
Definition resolved_alerts (now : Z) (alertId who : string)
    (alerts : list HealthAlert) : list HealthAlert :=
  (λ a, if decide (alert_id a = alertId) then set_resolved who now a else a)
  <$> alerts.

End Rows.

(** ** server/storage.ts: the read side, the upsert, the verification codes *)

Module Queries.
Import Schema Storage.

(** [ORDER BY key DESC]: a row precedes every row that is no newer. Among
    rows of equal key the database is free to choose; the model takes the
    order merge sort gives, and nothing proved below depends on it. *)
Definition newer_first {A : Type} (key : A → Z) (a b : A) : Prop :=
  key b ≤ key a.

#[global] Instance newer_first_dec {A : Type} (key : A → Z) (a b : A) :
  Decision (newer_first key a b).
Proof. unfold newer_first. apply _. Defined.

Definition order_by_desc {A : Type} (key : A → Z) (rows : list A) : list A :=
  merge_sort (newer_first key) rows.

Definition getPatientByUserId (db : Db) (userId : string) : option Patient :=
  head (filter (λ p, patient_userId p = userId) (patients db)).

Definition getEcgReadingById (db : Db) (id : string) : option EcgReading :=
  head (filter (λ r, reading_id r = id) (ecgReadings db)).

(** [where patientId] then [orderBy(desc(timestamp))] then [limit]. *)
Definition getLatestEcgReadings (db : Db) (patientId : string) (limit : nat)
  : list EcgReading :=
  take limit
    (order_by_desc reading_timestamp
       (filter (λ r, reading_patientId r = patientId) (ecgReadings db))).

Definition getAlertsByPatientId (db : Db) (patientId : string)
  : list HealthAlert :=
  order_by_desc alert_createdAt
    (filter (λ a, alert_patientId a = patientId) (healthAlerts db)).

(** [HealthAlert & { patient: Patient & { user: User } }] *)
Record AlertWithPatient := {
  ap_alert : HealthAlert;
  ap_patient : PatientWithUser
}.

(** [health_alerts INNER JOIN patients INNER JOIN users
    WHERE is_resolved = false ORDER BY created_at DESC]. *)
Definition getUnresolvedAlerts (db : Db) : list AlertWithPatient :=
  order_by_desc (λ row, alert_createdAt (ap_alert row))
    (a ← filter (λ a, alert_isResolved a = false) (healthAlerts db);
     p ← filter (λ p, patient_id p = alert_patientId a) (patients db);
     u ← filter (λ u, user_id u = patient_userId p) (users db);
     [ {| ap_alert := a;
          ap_patient := {| pw_patient := p; pw_user := u |} |} ]).

(** A key of an object handed to [values(...)] / [set(...)]: left out (or
    [undefined]), [null], or a value. *)
Inductive Given (A : Type) :=
| Absent
| Null
| Value (a : A).
Arguments Absent {A}.
Arguments Null {A}.
Arguments Value {A} a.

(** [values(...)]: a key left out takes the column default. *)
Definition inserted {A : Type} (g : Given A) (default : option A) : option A :=
  match g with
  | Absent => default
  | Null => None
  | Value a => Some a
  end.

(** [set(...)]: a key left out leaves the column as it is. *)
Definition updated {A : Type} (g : Given A) (old : option A) : option A :=
  match g with
  | Absent => old
  | Null => None
  | Value a => Some a
  end.

(** [InsertAlertSettings], for the columns of [Schema.AlertSettings]. *)
Record InsertAlertSettings := {
  ins_s_patientId : string;
  ins_s_high : Given Z;
  ins_s_low : Given Z;
  ins_s_irregular : Given bool;
  ins_s_whatsapp : Given bool;
  ins_s_sms : Given bool
}.

Definition insert_settings_row (id : string) (s : InsertAlertSettings)
  : AlertSettings :=
  {| settings_id := id;
     settings_patientId := ins_s_patientId s;
     highHeartRateThreshold := inserted (ins_s_high s) (Some 120);
     lowHeartRateThreshold := inserted (ins_s_low s) (Some 50);
     enableIrregularRhythmAlerts := inserted (ins_s_irregular s) (Some true);
     enableWhatsAppAlerts := inserted (ins_s_whatsapp s) (Some true);
     enableSmsAlerts := inserted (ins_s_sms s) (Some true) |}.

Definition update_settings_row (s : InsertAlertSettings) (row : AlertSettings)
  : AlertSettings :=
  {| settings_id := settings_id row;
     settings_patientId := ins_s_patientId s;
     highHeartRateThreshold :=
       updated (ins_s_high s) (highHeartRateThreshold row);
     lowHeartRateThreshold :=
       updated (ins_s_low s) (lowHeartRateThreshold row);
     enableIrregularRhythmAlerts :=
       updated (ins_s_irregular s) (enableIrregularRhythmAlerts row);
     enableWhatsAppAlerts :=
       updated (ins_s_whatsapp s) (enableWhatsAppAlerts row);
     enableSmsAlerts := updated (ins_s_sms s) (enableSmsAlerts row) |}.

Definition with_alertSettings (rows : list AlertSettings) (db : Db) : Db :=
  {| users := users db; patients := patients db;
     ecgReadings := ecgReadings db; healthAlerts := healthAlerts db;
     alertSettings := rows |}.

(** A threshold given must fit its [integer] column. *)
Definition given_fits (g : Given Z) : bool :=
  match g with
  | Value v => fits_int4 v
  | _ => true
  end.

(** [insert(alertSettings).values(settings)
      .onConflictDoUpdate({ target: patientId, set: {...settings} })
      .returning()].
    The statement is rejected ([None]) when [patientId] references no
    patient or a threshold given does not fit its [integer] column; a row
    that already holds this [patientId] is rewritten in place, otherwise a
    row with the fresh [id] is appended. *)
Definition createOrUpdateAlertSettings (id : string) (s : InsertAlertSettings)
    (db : Db) : option (AlertSettings * Db) :=
  let mine := λ row, settings_patientId row = ins_s_patientId s in
  if negb (given_fits (ins_s_high s) && given_fits (ins_s_low s)) then None
  else
  match filter (λ p, patient_id p = ins_s_patientId s) (patients db) with
  | [] => None
  | _ :: _ =>
    match head (filter mine (alertSettings db)) with
    | Some row =>
      Some (update_settings_row s row,
            with_alertSettings
              ((λ row, if decide (mine row) then update_settings_row s row
                       else row) <$> alertSettings db) db)
    | None =>
      Some (insert_settings_row id s,
            with_alertSettings
              (alertSettings db ++ [insert_settings_row id s]) db)
    end
  end.

(** *** doctor_codes *)

Inductive DoctorCodeStatus := code_active | code_used | code_expired.

#[global] Instance DoctorCodeStatus_eq_dec : EqDecision DoctorCodeStatus.
Proof. solve_decision. Defined.

Record DoctorCode := {
  code_id : string;
  code_code : string;
  code_doctorName : string;
  code_institution : string;
  code_status : option DoctorCodeStatus;
  code_expiryDate : Z;
  code_usedAt : option Z;
  code_usedBy : option string;
  code_createdBy : string;
  code_createdAt : Z
}.

Record InsertDoctorCode := {
  ins_c_doctorName : string;
  ins_c_institution : string;
  ins_c_status : Given DoctorCodeStatus;
  ins_c_expiryDate : Z;
  ins_c_createdBy : string
}.

Definition getDoctorCodeByCode (codes : list DoctorCode) (code : string)
  : option DoctorCode :=
  head (filter (λ c, code_code c = code) codes).

Definition set_used (now : Z) (usedBy : string) (c : DoctorCode) : DoctorCode :=
  {| code_id := code_id c; code_code := code_code c;
     code_doctorName := code_doctorName c;
     code_institution := code_institution c;
     code_status := Some code_used;
     code_expiryDate := code_expiryDate c;
     code_usedAt := Some now;
     code_usedBy := Some usedBy;
     code_createdBy := code_createdBy c;
     code_createdAt := code_createdAt c |}.

(** [update(doctorCodes).set({ status: 'used', usedAt, usedBy })
      .where(eq(doctorCodes.code, code))]. [used_by] references [users.id]
    ([us] is the users table): when a record would be rewritten with a
    [usedBy] that is no user, the statement is refused ([None]). *)
Definition markDoctorCodeAsUsed (us : list User) (now : Z)
    (code usedBy : string) (codes : list DoctorCode)
  : option (list DoctorCode) :=
  match filter (λ c, code_code c = code) codes,
        filter (λ u, user_id u = usedBy) us with
  | _ :: _, [] => None
  | _, _ =>
    Some ((λ c, if decide (code_code c = code)
                then set_used now usedBy c else c) <$> codes)
  end.

Definition getActiveDoctorCodes (codes : list DoctorCode) : list DoctorCode :=
  order_by_desc code_createdAt
    (filter (λ c, code_status c = Some code_active) codes).

(** [`CARD-${new Date().getFullYear()}-${Math.random().toString(36)
      .substring(2, 8).toUpperCase()}`]; [random36] stands for the (up to
    six) base-36 digits drawn. *)
Definition generated_code (year : Z) (random36 : string) : string :=
  "CARD-" +:+ JS.interp_num year +:+ "-" +:+ JS.toUpperCase random36.

(** [insert(doctorCodes).values({ ...doctorCode, code }).returning()]; the
    statement is rejected ([None]) when the code is already in the table
    (the column is [unique]). *)
Definition createDoctorCode (now : Z) (id : string) (year : Z)
    (random36 : string) (c : InsertDoctorCode) (codes : list DoctorCode)
  : option (DoctorCode * list DoctorCode) :=
  let code := generated_code year random36 in
  match getDoctorCodeByCode codes code with
  | Some _ => None
  | None =>
    let row := {| code_id := id; code_code := code;
                  code_doctorName := ins_c_doctorName c;
                  code_institution := ins_c_institution c;
                  code_status := inserted (ins_c_status c) (Some code_active);
                  code_expiryDate := ins_c_expiryDate c;
                  code_usedAt := None;
                  code_usedBy := None;
                  code_createdBy := ins_c_createdBy c;
                  code_createdAt := now |} in
    Some (row, codes ++ [row])
  end.

End Queries.

(** ** server/routes.ts: the remaining handlers *)

Module Endpoints.
Import Schema Storage Routes Queries.

(** What a handler answers: [res.json(a)], or [res.status(code).json({
    message })]. *)
Inductive Reply (A : Type) :=
| Json (a : A)
| Failed (code : Z) (message : string).
Arguments Json {A} a.
Arguments Failed {A} code message.

(** GET /api/doctor/alerts *)
Definition doctor_alerts (sub : string) (w : World)
  : Reply (list AlertWithPatient) :=
  match getUser (db w) sub with
  | Some user =>
    if decide (user_role user = doctor_role)
    then Json (getUnresolvedAlerts (db w))
    else Failed 403 "Doctor access required"
  | None => Failed 403 "Doctor access required"
  end.

(** The prologue the patient routes share: the caller must be a user with
    role patient, and have a patient record. *)
Definition as_patient {A : Type} (sub : string) (w : World)
    (k : Patient → Reply A * World) : Reply A * World :=
  match getUser (db w) sub with
  | Some user =>
    if decide (user_role user = patient_role)
    then match getPatientByUserId (db w) (user_id user) with
         | Some patient => k patient
         | None => (Failed 404 "Patient record not found", w)
         end
    else (Failed 403 "Patient access required", w)
  | None => (Failed 403 "Patient access required", w)
  end.

(** GET /api/patient/ecg-readings: [limit] keeps its default, 50. *)
Definition patient_ecg_readings (sub : string) (w : World)
  : Reply (list EcgReading) * World :=
  as_patient sub w (λ patient,
    (Json (getLatestEcgReadings (db w) (patient_id patient) 50), w)).

(** GET /api/patient/alerts *)
Definition patient_alerts (sub : string) (w : World)
  : Reply (list HealthAlert) * World :=
  as_patient sub w (λ patient,
    (Json (getAlertsByPatientId (db w) (patient_id patient)), w)).

(** GET /api/patient/alert-settings *)
Definition patient_alert_settings (sub : string) (w : World)
  : Reply (option AlertSettings) * World :=
  as_patient sub w (λ patient,
    (Json (getAlertSettingsByPatientId (db w) (patient_id patient)), w)).

(** [req.body] of PUT /api/patient/alert-settings. *)
Record SettingsBody := {
  sb_patientId : Given string;
  sb_high : Given Z;
  sb_low : Given Z;
  sb_irregular : Given bool;
  sb_whatsapp : Given bool;
  sb_sms : Given bool
}.

(** PUT /api/patient/alert-settings. The object stored is
    [{ patientId: patient.id, ...req.body }]: a [patientId] key of the
    body comes later in the literal and replaces the caller's own; a
    [null] there violates the column's [notNull] and the insert throws. *)
Definition put_patient_alert_settings (settingsId : string) (sub : string)
    (body : SettingsBody) (w : World) : Reply AlertSettings * World :=
  as_patient sub w (λ patient,
    let failed := (Failed 500 "Failed to update alert settings", w) in
    match sb_patientId body with
    | Null => failed
    | target =>
      let patientId := match target with
                       | Value id => id
                       | _ => patient_id patient
                       end in
      match createOrUpdateAlertSettings settingsId
              {| ins_s_patientId := patientId;
                 ins_s_high := sb_high body;
                 ins_s_low := sb_low body;
                 ins_s_irregular := sb_irregular body;
                 ins_s_whatsapp := sb_whatsapp body;
                 ins_s_sms := sb_sms body |} (db w) with
      | Some (settings, db') => (Json settings, with_db db' w)
      | None => failed
      end
    end).

(** [req.session.pendingRegistration] *)
Inductive PendingRegistration :=
| PendingPatient (email mobileNumber firstName lastName : option string)
| PendingDoctor (email firstName lastName medicalLicenseNumber specialty
                 hospital : option string) (doctorCode : string).

Inductive RegistrationReply :=
| RedirectToLogin
| Rejected (code : Z) (message : string).

Record PatientRegistration := {
  pr_email : option string;
  pr_mobileNumber : option string;
  pr_firstName : option string;
  pr_lastName : option string;
  pr_password : option string;
  pr_preferredContact : option string
}.

(** POST /api/auth/register/patient: answers and rewrites the session. *)
Definition register_patient (body : PatientRegistration)
  : RegistrationReply * PendingRegistration :=
  (RedirectToLogin,
   PendingPatient
     (if JS.strict_eq (pr_preferredContact body) "email"
      then pr_email body else None)
     (if JS.strict_eq (pr_preferredContact body) "mobile"
      then pr_mobileNumber body else None)
     (pr_firstName body) (pr_lastName body)).

Record DoctorRegistration := {
  dr_email : option string;
  dr_firstName : option string;
  dr_lastName : option string;
  dr_password : option string;
  dr_doctorCode : string;
  dr_medicalLicenseNumber : option string;
  dr_specialty : option string;
  dr_hospital : option string
}.

(** [!codeRecord || codeRecord.status !== 'active'
     || new Date() > new Date(codeRecord.expiryDate)] *)
Definition code_refused (now : Z) (codeRecord : option DoctorCode) : bool :=
  match codeRecord with
  | None => true
  | Some c =>
    negb (bool_decide (code_status c = Some code_active))
    || (now >? code_expiryDate c)
  end.

(** POST /api/auth/register/doctor: the session is rewritten only when the
    code is accepted. *)
Definition register_doctor (now : Z) (body : DoctorRegistration)
    (codes : list DoctorCode) (session : option PendingRegistration)
  : RegistrationReply * option PendingRegistration :=
  if code_refused now (getDoctorCodeByCode codes (dr_doctorCode body))
  then (Rejected 400 "Invalid or expired doctor code", session)
  else (RedirectToLogin,
        Some (PendingDoctor (dr_email body) (dr_firstName body)
                (dr_lastName body) (dr_medicalLicenseNumber body)
                (dr_specialty body) (dr_hospital body)
                (dr_doctorCode body))).

End Endpoints.

(** ** The server as a transition system *)

Module Run.
Import Schema Storage Routes.

Inductive Event :=
| Connect (ws : WebSocket) (userId : option string)
| LeaveOpen (ws : WebSocket)
| Close (ws : WebSocket)
| SocketError (ws : WebSocket)
| Submit (now : Z) (readingId alertId : string) (req : SubmitBody)
| Resolve (now : Z) (sub alertId : string).

Definition apply_event (e : Event) (w : World) : World :=
  match e with
  | Connect ws userId => ws_on_connection ws userId w
  | LeaveOpen ws => ws_leaves_open ws w
  | Close ws => ws_on_close ws w
  | SocketError ws => ws_on_error ws w
  | Submit now readingId alertId req =>
    (ecg_submit now readingId alertId req w).2
  | Resolve now sub alertId => (alerts_resolve now sub alertId w).2
  end.

Definition run (events : list Event) (w : World) : World :=
  foldl (λ w e, apply_event e w) w events.

(** What the environment guarantees: a connection brings a socket object
    that is new, and the database draws an identifier no reading has. *)
Definition admissible (e : Event) (w : World) : Prop :=
  match e with
  | Connect ws _ => listeners w !! ws = None ∧ ws ∉ openSockets w
  | Submit _ readingId _ _ =>
    ∀ r, r ∈ ecgReadings (db w) → reading_id r ≠ readingId
  | _ => True
  end.

(** The server starts with no reading, no alert and nobody connected. *)
Definition initial (us : list User) (ps : list Patient)
    (ss : list AlertSettings) : World :=
  {| db := {| users := us; patients := ps; ecgReadings := [];
              healthAlerts := []; alertSettings := ss |};
     wsClients := ∅; listeners := ∅; openSockets := ∅; trace := [] |}.

Inductive reachable : World → Prop :=
| reachable_initial us ps ss : reachable (initial us ps ss)
| reachable_step w e :
    reachable w → admissible e w → reachable (apply_event e w).

End Run.

(** ** client: NotificationCenter *)

Module NotificationCenter.
Import Schema Routes.

Inductive NotificationType := health_alert | system | reminder.

Record Notification := {
  n_id : string;
  n_type : NotificationType;
  n_title : string;
  n_message : string;
  n_timestamp : Z;
  n_read : bool;
  n_severity : option AlertSeverity
}.

(** What [socket.onmessage] finds in [event.data]: a [health_alert]
    payload, or anything else (another type, text that does not parse). *)
Inductive Incoming :=
| HealthAlertPayload (m : AlertMessage)
| OtherData.

Definition newNotification (m : AlertMessage) : Notification :=
  {| n_id := "alert-" +:+ alert_id (msg_alert m);
     n_type := health_alert;
     n_title := "Health Alert";
     n_message := alert_message (msg_alert m);
     n_timestamp := alert_createdAt (msg_alert m);
     n_read := false;
     n_severity := Some (alert_severity (msg_alert m)) |}.

(** [setNotifications(prev => [newNotification, ...prev.slice(0, 19)])] *)
Definition onmessage (data : Incoming) (prev : list Notification)
  : list Notification :=
  match data with
  | HealthAlertPayload m => newNotification m :: take 19 prev
  | OtherData => prev
  end.

(** The two demo notifications the component starts with. *)
Definition initialNotifications (now : Z) : list Notification :=
  [ {| n_id := "demo-1"; n_type := system;
       n_title := "Welcome to CardioEye";
       n_message := "Your heart monitoring system is now active.";
       n_timestamp := now - 1000 * 60 * 30;
       n_read := false; n_severity := None |};
    {| n_id := "demo-2"; n_type := reminder;
       n_title := "Device Connection";
       n_message :=
         "Make sure your smartwatch is connected for continuous monitoring.";
       n_timestamp := now - 1000 * 60 * 60 * 2;
       n_read := true; n_severity := None |} ].

Definition unreadCount (notifications : list Notification) : nat :=
  length (filter (λ n, n_read n = false) notifications).

Definition set_read (n : Notification) : Notification :=
  {| n_id := n_id n; n_type := n_type n; n_title := n_title n;
     n_message := n_message n; n_timestamp := n_timestamp n;
     n_read := true; n_severity := n_severity n |}.

Definition markAsRead (notificationId : string) (prev : list Notification)
  : list Notification :=
  (λ n, if decide (n_id n = notificationId) then set_read n else n) <$> prev.

Definition markAllAsRead (prev : list Notification) : list Notification :=
  set_read <$> prev.

Definition removeNotification (notificationId : string)
    (prev : list Notification) : list Notification :=
  filter (λ n, n_id n ≠ notificationId) prev.

(** What can happen to the list while the component is mounted. *)
Inductive Action :=
| Receive (data : Incoming)
| MarkAsRead (notificationId : string)
| MarkAllAsRead
| Remove (notificationId : string).

Definition act (a : Action) (prev : list Notification) : list Notification :=
  match a with
  | Receive data => onmessage data prev
  | MarkAsRead id => markAsRead id prev
  | MarkAllAsRead => markAllAsRead prev
  | Remove id => removeNotification id prev
  end.

End NotificationCenter.

(** ** A second patient, verification codes and an inbox, for the examples *)

Module Ward.
Import Schema Storage Routes Queries Endpoints.

Definition bob : User :=
  {| user_id := "u-bob"; user_firstName := Some "Bob";
     user_lastName := None; user_role := patient_role;
     user_mobileNumber := Some "+15550100" |}.

(** Bob is followed by the doctor whose record is [d-grace]. *)
Definition bob_patient : Patient :=
  {| patient_id := "p-bob"; patient_userId := "u-bob";
     patient_doctorId := Some "d-grace" |}.

Definition bob_record : PatientWithUser :=
  {| pw_patient := bob_patient; pw_user := bob |}.

(** Ada and Bob are patients; Bob has a settings row with everything on
    and thresholds 130/45. *)
Definition ward : World :=
  {| db := {| users := [Fixture.ada; Fixture.grace; bob];
              patients := [Fixture.ada_patient; bob_patient];
              ecgReadings := []; healthAlerts := [];
              alertSettings :=
                [ {| settings_id := "s-bob"; settings_patientId := "p-bob";
                     highHeartRateThreshold := Some 130;
                     lowHeartRateThreshold := Some 45;
                     enableIrregularRhythmAlerts := Some true;
                     enableWhatsAppAlerts := Some true;
                     enableSmsAlerts := Some true |} ] |};
     wsClients := ∅; listeners := ∅; openSockets := ∅; trace := [] |}.

Definition alan : User :=
  {| user_id := "u-alan"; user_firstName := Some "Alan";
     user_lastName := Some "Turing"; user_role := doctor_role;
     user_mobileNumber := None |}.

(** A clinic with two doctors, after Ada's device reported 150 BPM: one
    unresolved alert, [a-1]. *)
Definition clinic : World :=
  (ecg_submit 1000 "r-1" "a-1"
     (Fixture.submission "p-ada" 150 (Some "normal"))
     {| db := {| users := [Fixture.ada; Fixture.grace; alan];
                 patients := [Fixture.ada_patient];
                 ecgReadings := []; healthAlerts := [];
                 alertSettings := [] |};
        wsClients := ∅; listeners := ∅; openSockets := ∅;
        trace := [] |}).2.

(** Ada's second tab is going away: its [readyState] has left [OPEN], its
    [close] listener has not run yet. *)
Definition tab_going_away : World :=
  ws_leaves_open 2%nat Fixture.two_tabs.

(** The payload of the alert [alertId] raised at [now] for Ada's 150
    BPM. *)
Definition alarm (alertId : string) (now : Z) : AlertMessage :=
  {| msg_alert :=
       Rows.alert_row now "r-1" alertId
         (Fixture.submission "p-ada" 150 (Some "normal")) None;
     msg_patient_id := "p-ada";
     msg_patient_name := "Ada Byron" |}.

(** A bad night: the alerts [a-1] to [a-20] arrive one after the other. *)
Definition bad_night : list NotificationCenter.Action :=
  (λ k, NotificationCenter.Receive
          (NotificationCenter.HealthAlertPayload
             (alarm ("a-" +:+ JS.interp_num (Z.of_nat k)) (Z.of_nat k))))
  <$> seq 1 20.

(** Ada's list in the morning, the component having started with its two
    demo entries. *)
Definition full_inbox : list NotificationCenter.Notification :=
  foldl (λ l a, NotificationCenter.act a l)
    (NotificationCenter.initialNotifications 0) bad_night.


(** The same write, as the storage layer receives it for Ada, and the
    row it makes when Ada has none. *)
Definition ada_write : InsertAlertSettings :=
  {| ins_s_patientId := "p-ada"; ins_s_high := Value 90;
     ins_s_low := Absent; ins_s_irregular := Absent;
     ins_s_whatsapp := Absent; ins_s_sms := Value false |}.

Definition ada_first_row : AlertSettings :=
  {| settings_id := "s-ada"; settings_patientId := "p-ada";
     highHeartRateThreshold := Some 90; lowHeartRateThreshold := Some 50;
     enableIrregularRhythmAlerts := Some true;
     enableWhatsAppAlerts := Some true; enableSmsAlerts := Some false |}.

(** One code issued by the administrator, valid until time 5000. *)
Definition issued : list DoctorCode :=
  [ {| code_id := "c-1"; code_code := "CARD-2025-AB12CD";
       code_doctorName := "Grace Hopper"; code_institution := "Navy";
       code_status := Some code_active; code_expiryDate := 5000;
       code_usedAt := None; code_usedBy := None;
       code_createdBy := "u-admin"; code_createdAt := 100 |} ].

Definition grace_signup : DoctorRegistration :=
  {| dr_email := Some "grace@example.org"; dr_firstName := Some "Grace";
     dr_lastName := Some "Hopper"; dr_password := Some "secret";
     dr_doctorCode := "CARD-2025-AB12CD";
     dr_medicalLicenseNumber := Some "ML-1"; dr_specialty := Some "cardio";
     dr_hospital := None |}.

Definition new_code : InsertDoctorCode :=
  {| ins_c_doctorName := "Alan Turing"; ins_c_institution := "NPL";
     ins_c_status := Absent; ins_c_expiryDate := 9000;
     ins_c_createdBy := "u-admin" |}.

End Ward.

(** ** Predicates used to state the properties below *)

Module Props.
Import Schema Storage Routes.

(** Every entry of [wsClients] names a socket whose [close] and [error]
    listeners were installed for the same identity. *)
Definition registry_consistent (w : World) : Prop :=
  ∀ uid ws, wsClients w !! uid = Some ws → listeners w !! ws = Some uid.

(** The later notification is the earlier one but for its [read] flag. *)
Definition same_but_read (before after : NotificationCenter.Notification)
  : Prop :=
  NotificationCenter.n_id after = NotificationCenter.n_id before
  ∧ NotificationCenter.n_type after = NotificationCenter.n_type before
  ∧ NotificationCenter.n_title after = NotificationCenter.n_title before
  ∧ NotificationCenter.n_message after = NotificationCenter.n_message before
  ∧ NotificationCenter.n_timestamp after
    = NotificationCenter.n_timestamp before
  ∧ NotificationCenter.n_severity after
    = NotificationCenter.n_severity before.




(** The later row is the earlier alert: same identifier, patient, reading,
    classification, message and creation time; and resolved if the earlier
    one was. *)
Definition keeps_record (before after : HealthAlert) : Prop :=
  alert_id after = alert_id before
  ∧ alert_patientId after = alert_patientId before
  ∧ alert_ecgReadingId after = alert_ecgReadingId before
  ∧ alert_alertType after = alert_alertType before
  ∧ alert_severity after = alert_severity before
  ∧ alert_message after = alert_message before
  ∧ alert_createdAt after = alert_createdAt before
  ∧ (alert_isResolved before = true → alert_isResolved after = true).

(** The socket writes among a list of effects, in order. *)
Definition pushes (es : list Effect) : list (WebSocket * AlertMessage) :=
  omap (λ e, match e with
             | WsSend ws m => Some (ws, m)
             | SendNotifications _ _ => None
             end) es.

(** The socket a push for identity [id] is written to: the one registered
    under [id], if it is open. *)
Definition reachable_socket (w : World) (id : string) : list WebSocket :=
  match wsClients w !! id with
  | Some ws => if decide (ws ∈ openSockets w) then [ws] else []
  | None => []
  end.

(** What a settings column holds after a write: the value or null given;
    for a key left out, the value stored before, or the column default when
    the patient had no row. *)
Definition written {A : Type} (given : Queries.Given A)
    (prior : option (option A)) (default : option A) : option A :=
  match given with
  | Queries.Value a => Some a
  | Queries.Null => None
  | Queries.Absent => match prior with
                      | Some old => old
                      | None => default
                      end
  end.

(** [alert_settings.patient_id] is [unique]. *)
Definition one_settings_row_per_patient (d : Db) : Prop :=
  NoDup (settings_patientId <$> alertSettings d).

End Props.

(** ** Properties of the submission handler *)

Section Submission.
Import Schema Storage Routes Rows.

Lemma strict_eq_normal (rhythm : option string) :
  JS.strict_eq rhythm "normal" = true ↔ rhythm = Some "normal".
Proof.
  destruct rhythm as [s|]; simpl.
  - rewrite String.eqb_eq. split; congruence.
  - split; discriminate.
Qed.

Lemma isNormal_spec (heartRate : Z) (rhythm : option string) :
  isNormal heartRate rhythm = true
  ↔ 50 ≤ heartRate ≤ 120 ∧ rhythm = Some "normal".
Proof.
  unfold isNormal.
  rewrite !andb_true_iff, !Z.leb_le, strict_eq_normal. tauto.
Qed.

Lemma or_num_in_force (stored : option Z) (default : Z) :
  JS.or_num stored default = Spec.threshold_in_force stored default.
Proof.
  destruct stored as [t|]; simpl; [|done].
  case_decide; subst; [done|].
  by destruct (Z.eqb_spec t 0).
Qed.

(** The [if] chain of the handler is the decision table, read with the
    thresholds in force. *)
Lemma alertDecision_policy (heartRate : Z) (rhythm : option string)
    (settings : option AlertSettings) :
  Spec.first_match_policy
    (Spec.threshold_in_force (settings ≫= highHeartRateThreshold) 120)
    (Spec.threshold_in_force (settings ≫= lowHeartRateThreshold) 50)
    heartRate rhythm
    (alertDecision heartRate rhythm settings).1
    (alertDecision heartRate rhythm settings).2.
Proof.
  unfold alertDecision. rewrite !or_num_in_force.
  set (hi := Spec.threshold_in_force _ 120).
  set (lo := Spec.threshold_in_force _ 50).
  pose proof (strict_eq_normal rhythm) as Hr.
  destruct (Z.gtb_spec heartRate hi) as [Hhi|Hhi].
  { repeat split; try lia. simpl.
    destruct (Z.gtb_spec heartRate 140); case_decide; done || lia. }
  destruct (Z.ltb_spec heartRate lo) as [Hlo|Hlo].
  { repeat split; try lia. simpl.
    destruct (Z.ltb_spec heartRate 40); case_decide; done || lia. }
  destruct (JS.strict_eq rhythm "normal") eqn:E; simpl.
  - assert (rhythm = Some "normal") by by apply Hr.
    repeat split; lia || done.
  - assert (rhythm ≠ Some "normal") by (intros ?%Hr; done).
    repeat split; lia || done.
Qed.

Lemma alertDecision_high (heartRate : Z) (rhythm : option string)
    (settings : option AlertSettings) :
  (alertDecision heartRate rhythm settings).1 = "high_heart_rate"
  ↔ heartRate
    > Spec.threshold_in_force (settings ≫= highHeartRateThreshold) 120.
Proof.
  unfold alertDecision. rewrite !or_num_in_force.
  destruct (Z.gtb_spec heartRate
              (Spec.threshold_in_force
                 (settings ≫= highHeartRateThreshold) 120)).
  - simpl. split; [lia|done].
  - destruct (_ <? _); [|destruct (negb _)]; simpl;
      (split; [discriminate|lia]).
Qed.

Lemma alertDecision_low (heartRate : Z) (rhythm : option string)
    (settings : option AlertSettings) :
  (alertDecision heartRate rhythm settings).1 = "low_heart_rate"
  ↔ heartRate
    ≤ Spec.threshold_in_force (settings ≫= highHeartRateThreshold) 120
    ∧ heartRate
      < Spec.threshold_in_force (settings ≫= lowHeartRateThreshold) 50.
Proof.
  unfold alertDecision. rewrite !or_num_in_force.
  destruct (Z.gtb_spec heartRate
              (Spec.threshold_in_force
                 (settings ≫= highHeartRateThreshold) 120)).
  - simpl. split; [discriminate|lia].
  - destruct (Z.ltb_spec heartRate
                (Spec.threshold_in_force
                   (settings ≫= lowHeartRateThreshold) 50)).
    + simpl. split; [lia|done].
    + destruct (negb _); simpl; (split; [discriminate|lia]).
Qed.

Lemma send_to_db (id : string) (m : AlertMessage) (w : World) :
  db (send_to id m w) = db w.
Proof.
  unfold send_to. destruct (wsClients w !! id); [|done].
  by case_decide.
Qed.

Lemma broadcastAlert_db (a : HealthAlert) (p : PatientWithUser) (w : World) :
  db (broadcastAlert a p w) = db w.
Proof.
  unfold broadcastAlert.
  destruct (JS.truthy_str _); by rewrite ?send_to_db.
Qed.

Variables (now : Z) (readingId alertId : string).
Variables (req : SubmitBody) (w : World) (patient : PatientWithUser).
Hypothesis found :
  getPatientWithUser (db w) (body_patientId req) = Some patient.
Hypothesis in_range : fits_int4 (body_heartRate req) = true.

Lemma ecg_submit_response :
  (ecg_submit now readingId alertId req w).1
  = respond 200 (SuccessReading (reading_row now readingId req)).
Proof.
  unfold ecg_submit, createEcgReading. rewrite found. simpl.
  by rewrite in_range.
Qed.

Lemma ecg_submit_readings :
  ecgReadings (db (ecg_submit now readingId alertId req w).2)
  = ecgReadings (db w) ++ [reading_row now readingId req].
Proof.
  unfold ecg_submit, createEcgReading, reading_row. rewrite found. simpl.
  rewrite in_range. simpl.
  destruct (isNormal _ _); simpl; [done|].
  destruct (alertDecision _ _ _); simpl.
  rewrite broadcastAlert_db. by destruct (_ || _).
Qed.

Lemma ecg_submit_normal :
  isNormal (body_heartRate req) (body_rhythm req) = true →
  healthAlerts (db (ecg_submit now readingId alertId req w).2)
  = healthAlerts (db w).
Proof.
  intros E. unfold ecg_submit, createEcgReading. rewrite found. simpl.
  destruct (fits_int4 (body_heartRate req)); [|done]. simpl. by rewrite E.
Qed.

Lemma ecg_submit_abnormal :
  isNormal (body_heartRate req) (body_rhythm req) = false →
  healthAlerts (db (ecg_submit now readingId alertId req w).2)
  = healthAlerts (db w)
    ++ [alert_row now readingId alertId req
          (getAlertSettingsByPatientId (db w) (body_patientId req))].
Proof.
  intros E. unfold ecg_submit, createEcgReading. rewrite found. simpl.
  rewrite in_range. simpl. rewrite E. simpl.
  unfold alert_row, getAlertSettingsByPatientId. simpl.
  destruct (alertDecision _ _ _); simpl.
  rewrite broadcastAlert_db. by destruct (_ || _).
Qed.

(** A heart rate the [integer] column cannot hold: the insert is refused,
    the handler answers 500 and nothing is stored or sent. *)
Lemma ecg_submit_refused :
  fits_int4 (body_heartRate req) = false →
  ecg_submit now readingId alertId req w
  = (respond 500 (Message "Failed to submit ECG data"), w).
Proof.
  intros E. unfold ecg_submit, createEcgReading. rewrite found. simpl.
  by rewrite E.
Qed.

End Submission.

Section SubmissionClaims.
Import Schema Storage Routes Rows Fixture.

Lemma or_str_given (rhythm default : string) :
  rhythm ≠ "" → JS.or_str (Some rhythm) default = rhythm.
Proof. intros Hne. simpl. by destruct (String.eqb_spec rhythm ""). Qed.

(** What is stored and answered for a submission that gives its rhythm:
    the reading holds that rhythm, and its flags are those of the claim
    read on the stored row. *)
Lemma ecg_submit_given_rhythm
    (now : Z) (readingId alertId : string) (req : SubmitBody) (w : World)
    (patient : PatientWithUser) (rhythm : string) :
  getPatientWithUser (db w) (body_patientId req) = Some patient →
  fits_int4 (body_heartRate req) = true →
  body_rhythm req = Some rhythm → rhythm ≠ "" →
  ∃ reading,
    (ecg_submit now readingId alertId req w).1
    = respond 200 (SuccessReading reading)
    ∧ ecgReadings (db (ecg_submit now readingId alertId req w).2)
      = ecgReadings (db w) ++ [reading]
    ∧ reading_heartRate reading = body_heartRate req
    ∧ reading_rhythm reading = Some rhythm
    ∧ reading_isNormal reading
      = isNormal (body_heartRate req) (body_rhythm req)
    ∧ reading_alertTriggered reading = negb (reading_isNormal reading).
Proof.
  intros Hfound Hfits Hrhythm Hne. exists (reading_row now readingId req).
  split; [by eapply ecg_submit_response|].
  split; [by eapply ecg_submit_readings|].
  unfold reading_row. simpl. rewrite Hrhythm, or_str_given by done.
  by repeat split.
Qed.

(** C1 (as amended). For every submission of a known subject that gives
    its rhythm, with a heart rate the integer column holds, and that the
    fixed band flagged abnormal, the handler stores the reading and appends
    exactly one alert, whose type and severity follow the first-match-wins
    table on the stored reading: above the high threshold
    [high_heart_rate] ([critical] above 140, else [high]); else below the
    low threshold [low_heart_rate] ([critical] below 40, else [high]);
    else with a rhythm other than "normal" [irregular_rhythm]/[high];
    else [abnormal_reading]/[medium]. The threshold compared with is the
    stored one when it is present and not 0, and the default (120 high,
    50 low) otherwise. *)
Theorem C1_alert_decision_first_match
    (now : Z) (readingId alertId : string) (req : SubmitBody) (w : World)
    (patient : PatientWithUser) (rhythm : string) :
  getPatientWithUser (db w) (body_patientId req) = Some patient →
  fits_int4 (body_heartRate req) = true →
  body_rhythm req = Some rhythm →
  rhythm ≠ "" →
  isNormal (body_heartRate req) (body_rhythm req) = false →
  let settings := getAlertSettingsByPatientId (db w) (body_patientId req) in
  ∃ reading alert,
    ecgReadings (db (ecg_submit now readingId alertId req w).2)
    = ecgReadings (db w) ++ [reading]
    ∧ reading_heartRate reading = body_heartRate req
    ∧ reading_rhythm reading = Some rhythm
    ∧ reading_isNormal reading = false
    ∧ healthAlerts (db (ecg_submit now readingId alertId req w).2)
      = healthAlerts (db w) ++ [alert]
    ∧ Spec.first_match_policy
        (Spec.threshold_in_force (settings ≫= highHeartRateThreshold) 120)
        (Spec.threshold_in_force (settings ≫= lowHeartRateThreshold) 50)
        (reading_heartRate reading) (reading_rhythm reading)
        (alert_alertType alert) (alert_severity alert).
Proof.
  intros Hfound Hfits Hrhythm Hne Habnormal settings.
  destruct (ecg_submit_given_rhythm now readingId alertId req w patient
              rhythm Hfound Hfits Hrhythm Hne)
    as (reading & _ & Hrs & Hhr & Hr & Hn & _).
  exists reading. eexists.
  split; [done|]. split; [done|]. split; [done|].
  split; [by rewrite Hn|].
  split; [by apply ecg_submit_abnormal with (patient := patient)|].
  rewrite Hhr, Hr, <- Hrhythm. apply alertDecision_policy.
Qed.

(** C1 at work: thresholds 150/50 stored, 130 BPM, rhythm "normal": the
    fixed band flags the reading, no rule fires, and the fourth row of the
    table applies. *)
Lemma C1_alert_decision_first_match_witness :
  getPatientWithUser (db personal_world) "p-ada" = Some ada_record
  ∧ fits_int4 130 = true
  ∧ Some "normal" = Some "normal"
  ∧ "normal" ≠ ""
  ∧ isNormal 130 (Some "normal") = false
  ∧ ∃ reading alert,
      ecgReadings
        (db (ecg_submit 1000 "r-1" "a-1"
               (submission "p-ada" 130 (Some "normal")) personal_world).2)
      = ecgReadings (db personal_world) ++ [reading]
      ∧ reading_heartRate reading = 130
      ∧ reading_rhythm reading = Some "normal"
      ∧ reading_isNormal reading = false
      ∧ healthAlerts
          (db (ecg_submit 1000 "r-1" "a-1"
                 (submission "p-ada" 130 (Some "normal")) personal_world).2)
        = healthAlerts (db personal_world) ++ [alert]
      ∧ Spec.first_match_policy 150 50
          (reading_heartRate reading) (reading_rhythm reading)
          (alert_alertType alert) (alert_severity alert).
Proof.
  assert ("normal" ≠ "") as Hne by discriminate.
  split; [reflexivity|]. split; [reflexivity|]. split; [reflexivity|].
  split; [exact Hne|]. split; [reflexivity|].
  exact (C1_alert_decision_first_match 1000 "r-1" "a-1"
           (submission "p-ada" 130 (Some "normal")) personal_world
           ada_record "normal" eq_refl eq_refl eq_refl Hne eq_refl).
Defined.

(** C1 as the specification words it fails: Ada's row holds 0 as high
    threshold and her device reports 100 BPM with rhythm "afib". The heart
    rate exceeds the subject's stored threshold, yet the alert is not
    [high_heart_rate]: the handler compared with 120 and went on to the
    rhythm. *)
Lemma C1_stored_zero_threshold_counterexample :
  ∃ row alert,
    getAlertSettingsByPatientId (db zeroed_world) "p-ada" = Some row
    ∧ highHeartRateThreshold row = Some 0
    ∧ 100 > 0
    ∧ healthAlerts
        (db (ecg_submit 1000 "r-1" "a-1"
               (submission "p-ada" 100 (Some "afib")) zeroed_world).2)
      = [alert]
    ∧ alert_alertType alert = "irregular_rhythm"
    ∧ alert_alertType alert ≠ "high_heart_rate".
Proof. do 2 eexists. split; [reflexivity|]. by repeat split. Qed.

(** C2. Read on the stored row, the claim fails for a submission without
    rhythm: Ada's 80 BPM is stored with rhythm "normal" and a heart rate
    within 50..120, yet with [isNormal] false and [alertTriggered] true,
    and an alert is created. (The normalcy test read the raw field; this is
    the defect of C9.) For every submission that gives its rhythm, with a
    heart rate the integer column holds, the stored reading is as the
    claim says: [isNormal] exactly when its heart rate is within 50..120
    and its rhythm is "normal", [alertTriggered] the negation, and no alert
    when it is normal. *)
Theorem C2_persisted_reading_normalcy :
  (∃ reading alert,
      (ecg_submit 1000 "r-1" "a-1" (submission "p-ada" 80 None)
         (world [])).1
      = respond 200 (SuccessReading reading)
      ∧ ecgReadings
          (db (ecg_submit 1000 "r-1" "a-1" (submission "p-ada" 80 None)
                 (world [])).2)
        = [reading]
      ∧ reading_heartRate reading = 80
      ∧ reading_rhythm reading = Some "normal"
      ∧ reading_isNormal reading = false
      ∧ reading_alertTriggered reading = true
      ∧ healthAlerts
          (db (ecg_submit 1000 "r-1" "a-1" (submission "p-ada" 80 None)
                 (world [])).2)
        = [alert])
  ∧ (∀ now readingId alertId req w patient rhythm,
       getPatientWithUser (db w) (body_patientId req) = Some patient →
       fits_int4 (body_heartRate req) = true →
       body_rhythm req = Some rhythm →
       rhythm ≠ "" →
       ∃ reading,
         (ecg_submit now readingId alertId req w).1
         = respond 200 (SuccessReading reading)
         ∧ ecgReadings (db (ecg_submit now readingId alertId req w).2)
           = ecgReadings (db w) ++ [reading]
         ∧ (reading_isNormal reading = true
            ↔ 50 ≤ reading_heartRate reading ≤ 120
              ∧ reading_rhythm reading = Some "normal")
         ∧ reading_alertTriggered reading = negb (reading_isNormal reading)
         ∧ (reading_isNormal reading = true →
            healthAlerts (db (ecg_submit now readingId alertId req w).2)
            = healthAlerts (db w))).
Proof.
  split.
  - do 2 eexists. split; [reflexivity|]. by repeat split.
  - intros now readingId alertId req w patient rhythm Hfound Hfits Hr Hne.
    destruct (ecg_submit_given_rhythm now readingId alertId req w patient
                rhythm Hfound Hfits Hr Hne)
      as (reading & Hresp & Hrs & Hhr & Hrr & Hn & Ht).
    exists reading. split; [done|]. split; [done|].
    split; [|split; [done|]].
    + rewrite Hn, Hhr, Hrr, <- Hr. apply isNormal_spec.
    + rewrite Hn. intros E. by eapply ecg_submit_normal.
Qed.

(** C2 at work, where it holds: Ada's 80 BPM with rhythm "normal" given is
    stored as a normal reading and raises no alert. *)
Lemma C2_persisted_reading_normalcy_witness :
  getPatientWithUser (db (world [])) "p-ada" = Some ada_record
  ∧ fits_int4 80 = true
  ∧ "normal" ≠ ""
  ∧ ∃ reading,
      (ecg_submit 1000 "r-1" "a-1" (submission "p-ada" 80 (Some "normal"))
         (world [])).1
      = respond 200 (SuccessReading reading)
      ∧ ecgReadings
          (db (ecg_submit 1000 "r-1" "a-1"
                 (submission "p-ada" 80 (Some "normal")) (world [])).2)
        = ecgReadings (db (world [])) ++ [reading]
      ∧ (reading_isNormal reading = true
         ↔ 50 ≤ reading_heartRate reading ≤ 120
           ∧ reading_rhythm reading = Some "normal")
      ∧ reading_alertTriggered reading = negb (reading_isNormal reading)
      ∧ (reading_isNormal reading = true →
         healthAlerts
           (db (ecg_submit 1000 "r-1" "a-1"
                  (submission "p-ada" 80 (Some "normal")) (world [])).2)
         = healthAlerts (db (world []))).
Proof.
  assert ("normal" ≠ "") as Hne by discriminate.
  split; [reflexivity|]. split; [reflexivity|]. split; [exact Hne|].
  exact (proj2 C2_persisted_reading_normalcy 1000 "r-1" "a-1"
           (submission "p-ada" 80 (Some "normal")) (world []) ada_record
           "normal" eq_refl eq_refl eq_refl Hne).
Defined.

(** C8. A submission whose subject identifier resolves to no subject
    record is answered 404 "Patient not found" and leaves the whole state
    as it was: no reading, no alert, no socket write, no notification
    call. *)
Theorem C8_unknown_subject_no_effect
    (now : Z) (readingId alertId : string) (req : SubmitBody) (w : World) :
  getPatientWithUser (db w) (body_patientId req) = None →
  ecg_submit now readingId alertId req w
  = (respond 404 (Message "Patient not found"), w).
Proof. intros Hnone. unfold ecg_submit. by rewrite Hnone. Qed.

(** C8 at work: a reading for a subject the hospital does not know. *)
Lemma C8_unknown_subject_no_effect_witness :
  getPatientWithUser (db world_after_alert) "p-nobody" = None
  ∧ ecg_submit 2000 "r-2" "a-2" (submission "p-nobody" 180 (Some "afib"))
      world_after_alert
    = (respond 404 (Message "Patient not found"), world_after_alert).
Proof.
  split; [reflexivity|].
  exact (C8_unknown_subject_no_effect 2000 "r-2" "a-2"
           (submission "p-nobody" 180 (Some "afib")) world_after_alert
           eq_refl).
Defined.

(** C3 (as amended). With default settings and rhythm "normal", a
    submission with heartRate = 150 is classified [high_heart_rate] with
    severity [critical], and so is one with heartRate = 145: both exceed
    the boundary 140. *)
Theorem C3_default_settings_above_140
    (now : Z) (readingId alertId : string) (req : SubmitBody) (w : World)
    (patient : PatientWithUser) :
  getPatientWithUser (db w) (body_patientId req) = Some patient →
  Spec.default_settings
    (getAlertSettingsByPatientId (db w) (body_patientId req)) →
  body_rhythm req = Some "normal" →
  body_heartRate req = 150 ∨ body_heartRate req = 145 →
  ∃ alert,
    healthAlerts (db (ecg_submit now readingId alertId req w).2)
    = healthAlerts (db w) ++ [alert]
    ∧ alert_alertType alert = "high_heart_rate"
    ∧ alert_severity alert = critical.
Proof.
  intros Hfound Hdefault Hrhythm Hrate.
  assert (isNormal (body_heartRate req) (body_rhythm req) = false) as Hab.
  { apply not_true_is_false. rewrite isNormal_spec. lia. }
  assert (fits_int4 (body_heartRate req) = true) as Hfits.
  { by destruct Hrate as [-> | ->]. }
  eexists. split; [by apply ecg_submit_abnormal with (patient := patient)|].
  unfold alert_row, alertDecision; simpl.
  destruct (getAlertSettingsByPatientId _ _) as [row|]; simpl in *.
  - destruct Hdefault as [-> _]. by destruct Hrate as [-> | ->].
  - by destruct Hrate as [-> | ->].
Qed.

(** C3 at work: no settings row, 145 BPM. *)
Lemma C3_default_settings_above_140_witness :
  getPatientWithUser (db (world [])) "p-ada" = Some ada_record
  ∧ Spec.default_settings (getAlertSettingsByPatientId (db (world [])) "p-ada")
  ∧ Some "normal" = Some "normal"
  ∧ (145 = 150 ∨ 145 = 145)
  ∧ ∃ alert,
      healthAlerts
        (db (ecg_submit 1000 "r-1" "a-1"
               (submission "p-ada" 145 (Some "normal")) (world [])).2)
      = healthAlerts (db (world [])) ++ [alert]
      ∧ alert_alertType alert = "high_heart_rate"
      ∧ alert_severity alert = critical.
Proof.
  split; [reflexivity|]. split; [exact I|]. split; [reflexivity|].
  split; [right; reflexivity|].
  exact (C3_default_settings_above_140 1000 "r-1" "a-1"
           (submission "p-ada" 145 (Some "normal")) (world [])
           ada_record eq_refl I eq_refl (or_intror eq_refl)).
Defined.

(** C3 as the specification words it fails: with no settings row and
    rhythm "normal", 150 BPM yields [high_heart_rate] with severity
    [critical], not [high]. *)
Lemma C3_severity_at_150_counterexample :
  ∃ alert,
    healthAlerts
      (db (ecg_submit 1000 "r-1" "a-1"
             (submission "p-ada" 150 (Some "normal")) (world [])).2)
    = [alert]
    ∧ alert_alertType alert = "high_heart_rate"
    ∧ alert_severity alert = critical
    ∧ alert_severity alert ≠ high.
Proof. eexists. split; [reflexivity|]. by repeat split. Qed.

(** C10. The thresholds are read through [||]: for every abnormal
    submission (of a known subject, with a heart rate the integer column
    holds) the handler compares the heart rate with the stored threshold
    when one is present and non-zero, and with the default (120 high,
    50 low) otherwise; in particular a stored 0 is ignored. *)
Theorem C10_zero_threshold_falls_back
    (now : Z) (readingId alertId : string) (req : SubmitBody) (w : World)
    (patient : PatientWithUser) :
  getPatientWithUser (db w) (body_patientId req) = Some patient →
  fits_int4 (body_heartRate req) = true →
  isNormal (body_heartRate req) (body_rhythm req) = false →
  let settings := getAlertSettingsByPatientId (db w) (body_patientId req) in
  let stored_high := settings ≫= highHeartRateThreshold in
  let stored_low := settings ≫= lowHeartRateThreshold in
  let heartRate := body_heartRate req in
  ∃ alert,
    healthAlerts (db (ecg_submit now readingId alertId req w).2)
    = healthAlerts (db w) ++ [alert]
    ∧ (alert_alertType alert = "high_heart_rate"
       ↔ heartRate > Spec.threshold_in_force stored_high 120)
    ∧ (alert_alertType alert = "low_heart_rate"
       ↔ heartRate ≤ Spec.threshold_in_force stored_high 120
         ∧ heartRate < Spec.threshold_in_force stored_low 50)
    ∧ (stored_high = Some 0 →
       (alert_alertType alert = "high_heart_rate" ↔ heartRate > 120))
    ∧ (stored_low = Some 0 →
       (alert_alertType alert = "low_heart_rate"
        ↔ heartRate ≤ Spec.threshold_in_force stored_high 120
          ∧ heartRate < 50)).
Proof.
  intros Hfound Hfits Hab settings stored_high stored_low heartRate.
  eexists. split; [by apply ecg_submit_abnormal with (patient := patient)|].
  simpl. fold settings.
  pose proof (alertDecision_high heartRate (body_rhythm req) settings) as Hh.
  pose proof (alertDecision_low heartRate (body_rhythm req) settings) as Hl.
  fold stored_high in Hh, Hl. fold stored_low in Hl.
  split; [exact Hh|]. split; [exact Hl|]. split.
  - intros E. by rewrite E in Hh.
  - intros E. by rewrite E in Hl.
Qed.

(** C10 at work: both stored thresholds are 0 and the device reports
    100 BPM with rhythm "afib"; read literally, 100 > 0 would make it a
    high heart rate. *)
Lemma C10_zero_threshold_falls_back_witness :
  getPatientWithUser (db zeroed_world) "p-ada" = Some ada_record
  ∧ fits_int4 100 = true
  ∧ isNormal 100 (Some "afib") = false
  ∧ ∃ alert,
      healthAlerts
        (db (ecg_submit 1000 "r-1" "a-1"
               (submission "p-ada" 100 (Some "afib")) zeroed_world).2)
      = healthAlerts (db zeroed_world) ++ [alert]
      ∧ (alert_alertType alert = "high_heart_rate" ↔ 100 > 120)
      ∧ (alert_alertType alert = "low_heart_rate" ↔ 100 ≤ 120 ∧ 100 < 50)
      ∧ (Some 0 = Some 0 →
         (alert_alertType alert = "high_heart_rate" ↔ 100 > 120))
      ∧ (Some 0 = Some 0 →
         (alert_alertType alert = "low_heart_rate" ↔ 100 ≤ 120 ∧ 100 < 50)).
Proof.
  split; [reflexivity|]. split; [reflexivity|]. split; [reflexivity|].
  exact (C10_zero_threshold_falls_back 1000 "r-1" "a-1"
           (submission "p-ada" 100 (Some "afib")) zeroed_world
           ada_record eq_refl eq_refl eq_refl).
Defined.

End SubmissionClaims.

(** ** The alert message and the absent rhythm *)

Section MessageAndRhythm.
Import Schema Storage Routes Rows Fixture.

(** C4. The message is built with [replace('_', ' ')], which rewrites the
    first underscore only: for the two-underscore types the text reads
    "HIGH HEART_RATE: ..." / "LOW HEART_RATE: ...", not the format of the
    specification, whatever the heart rate and rhythm; the alert stored
    for 150 BPM shows it. For the one-underscore types the two agree. *)
Theorem C4_message_keeps_second_underscore :
  (∃ alert,
      healthAlerts
        (db (ecg_submit 1000 "r-1" "a-1"
               (submission "p-ada" 150 (Some "normal")) (world [])).2)
      = [alert]
      ∧ alert_alertType alert = "high_heart_rate"
      ∧ alert_message alert
        = "HIGH HEART_RATE: Heart rate 150 BPM, Rhythm: normal"
      ∧ Spec.message_format (alert_alertType alert) 150 (Some "normal")
        = "HIGH HEART RATE: Heart rate 150 BPM, Rhythm: normal")
  ∧ (∀ heartRate rhythm,
      alertMessage "high_heart_rate" heartRate rhythm
      ≠ Spec.message_format "high_heart_rate" heartRate rhythm)
  ∧ (∀ heartRate rhythm,
      alertMessage "low_heart_rate" heartRate rhythm
      ≠ Spec.message_format "low_heart_rate" heartRate rhythm)
  ∧ (∀ heartRate rhythm,
      alertMessage "irregular_rhythm" heartRate rhythm
      = Spec.message_format "irregular_rhythm" heartRate rhythm)
  ∧ (∀ heartRate rhythm,
      alertMessage "abnormal_reading" heartRate rhythm
      = Spec.message_format "abnormal_reading" heartRate rhythm).
Proof.
  split; [eexists; by repeat split|].
  repeat split; intros heartRate rhythm;
    unfold alertMessage, Spec.message_format; simpl;
    solve [discriminate | reflexivity].
Qed.

(** C9. A submission without a rhythm field is stored with rhythm
    "normal" but is not classified like one that says "normal": the
    normalcy test and the decision read the raw field, so the reading is
    flagged abnormal whatever the heart rate, and at 80 BPM an
    [irregular_rhythm] alert is raised whose message reads
    "Rhythm: undefined", where the explicit "normal" submission is normal
    and raises nothing. *)
Theorem C9_absent_rhythm_is_flagged :
  (∀ heartRate, isNormal heartRate None = false)
  ∧ (∃ reading alert,
        (ecg_submit 1000 "r-1" "a-1" (submission "p-ada" 80 None)
           (world [])).1
        = respond 200 (SuccessReading reading)
        ∧ reading_rhythm reading = Some "normal"
        ∧ reading_isNormal reading = false
        ∧ reading_alertTriggered reading = true
        ∧ healthAlerts
            (db (ecg_submit 1000 "r-1" "a-1" (submission "p-ada" 80 None)
                   (world [])).2)
          = [alert]
        ∧ alert_alertType alert = "irregular_rhythm"
        ∧ alert_severity alert = high
        ∧ alert_message alert
          = "IRREGULAR RHYTHM: Heart rate 80 BPM, Rhythm: undefined")
  ∧ (∃ reading,
        (ecg_submit 1000 "r-1" "a-1"
           (submission "p-ada" 80 (Some "normal")) (world [])).1
        = respond 200 (SuccessReading reading)
        ∧ reading_rhythm reading = Some "normal"
        ∧ reading_isNormal reading = true
        ∧ reading_alertTriggered reading = false
        ∧ healthAlerts
            (db (ecg_submit 1000 "r-1" "a-1"
                   (submission "p-ada" 80 (Some "normal")) (world [])).2)
          = []).
Proof.
  split.
  { intros heartRate. unfold isNormal. simpl. apply andb_false_r. }
  split.
  - do 2 eexists. by repeat split.
  - eexists. by repeat split.
Qed.

End MessageAndRhythm.

(** ** Resolving alerts *)

Section Resolution.
Import Schema Storage Routes Rows Fixture.

Lemma set_resolved_resolved_by (who : string) (now : Z) (a : HealthAlert) :
  Spec.resolved_by who now a (set_resolved who now a).
Proof. by repeat split. Qed.

Lemma resolved_alerts_lookup (now : Z) (alertId who : string)
    (alerts : list HealthAlert) (i : nat) :
  resolved_alerts now alertId who alerts !! i
  = (λ a, if decide (alert_id a = alertId)
          then set_resolved who now a else a) <$> alerts !! i.
Proof. apply list_lookup_fmap. Qed.

(** An [UPDATE] whose [WHERE] matches no row changes nothing. *)
Lemma resolved_alerts_unknown (now : Z) (alertId who : string)
    (alerts : list HealthAlert) :
  (∀ a, a ∈ alerts → alert_id a ≠ alertId) →
  resolved_alerts now alertId who alerts = alerts.
Proof.
  intros Hnone. unfold resolved_alerts.
  induction alerts as [|a alerts IH]; [done|].
  rewrite fmap_cons. f_equal.
  - case_decide as E; [|done]. exfalso. eapply Hnone; [|exact E]. by left.
  - apply IH. intros b Hb. apply Hnone. by right.
Qed.

Lemma resolved_alerts_twice (now1 now2 : Z) (alertId who1 who2 : string)
    (alerts : list HealthAlert) :
  resolved_alerts now2 alertId who2 (resolved_alerts now1 alertId who1 alerts)
  = resolved_alerts now2 alertId who2 alerts.
Proof.
  unfold resolved_alerts.
  rewrite <- list_fmap_compose. apply list_fmap_ext.
  intros i a _. simpl. destruct (decide (alert_id a = alertId)) as [E|E].
  - simpl. by rewrite decide_True.
  - by rewrite decide_False.
Qed.

Lemma resolved_alerts_stays_resolved (now : Z) (alertId who : string)
    (alerts : list HealthAlert) :
  Forall2 Spec.stays_resolved alerts (resolved_alerts now alertId who alerts).
Proof.
  unfold resolved_alerts.
  apply Forall2_fmap_r, Forall_Forall2_diag, Forall_forall.
  intros a _. unfold Spec.stays_resolved. simpl. by case_decide.
Qed.

(** What an accepted resolution leaves. *)
Lemma markAlertAsResolved_Some (now : Z) (alertId who : string) (d d' : Db) :
  markAlertAsResolved now alertId who d = Some d' →
  d' = {| users := users d; patients := patients d;
          ecgReadings := ecgReadings d;
          healthAlerts := resolved_alerts now alertId who (healthAlerts d);
          alertSettings := alertSettings d |}.
Proof.
  unfold markAlertAsResolved.
  destruct (filter (λ a, alert_id a = alertId) (healthAlerts d)),
    (filter (λ u, user_id u = who) (users d));
    by intros [= <-].
Qed.

(** A resolver who is a user is never refused. *)
Lemma markAlertAsResolved_user (now : Z) (alertId who : string) (d : Db) :
  (∃ u, u ∈ users d ∧ user_id u = who) →
  markAlertAsResolved now alertId who d
  = Some {| users := users d; patients := patients d;
            ecgReadings := ecgReadings d;
            healthAlerts := resolved_alerts now alertId who (healthAlerts d);
            alertSettings := alertSettings d |}.
Proof.
  intros (u & Hu & Hid). unfold markAlertAsResolved.
  assert (u ∈ filter (λ u, user_id u = who) (users d)) as Hf
    by (by apply list_elem_of_filter).
  destruct (filter (λ u, user_id u = who) (users d));
    [by apply elem_of_nil in Hf|].
  by destruct (filter (λ a, alert_id a = alertId) (healthAlerts d)).
Qed.

(** The statement is refused exactly when it would write a resolver that
    is no user. *)
Lemma markAlertAsResolved_None (now : Z) (alertId who : string) (d : Db) :
  markAlertAsResolved now alertId who d = None
  ↔ (∃ a, a ∈ healthAlerts d ∧ alert_id a = alertId)
    ∧ ∀ u, u ∈ users d → user_id u ≠ who.
Proof.
  unfold markAlertAsResolved.
  destruct (filter (λ a, alert_id a = alertId) (healthAlerts d))
    as [|a hit] eqn:Ha;
    destruct (filter (λ u, user_id u = who) (users d)) as [|u us] eqn:Hu.
  - split; [done|]. intros [(a & Hin & Hid) _]. exfalso.
    assert (a ∈ filter (λ a, alert_id a = alertId) (healthAlerts d)) as Hf
      by (by apply list_elem_of_filter).
    rewrite Ha in Hf. by apply elem_of_nil in Hf.
  - split; [done|]. intros [_ Hno]. exfalso.
    assert (u ∈ filter (λ u, user_id u = who) (users d)) as Hf
      by (rewrite Hu; by left).
    apply list_elem_of_filter in Hf as [Hid Hin]. by apply (Hno u).
  - split; [intros _|done]. split.
    + assert (a ∈ filter (λ a, alert_id a = alertId) (healthAlerts d)) as Hf
        by (rewrite Ha; by left).
      apply list_elem_of_filter in Hf as [Hid Hin]. by exists a.
    + intros u Hin Hid.
      assert (u ∈ filter (λ u, user_id u = who) (users d)) as Hf
        by (by apply list_elem_of_filter).
      rewrite Hu in Hf. by apply elem_of_nil in Hf.
  - split; [done|]. intros [_ Hno]. exfalso.
    assert (u ∈ filter (λ u, user_id u = who) (users d)) as Hf
      by (rewrite Hu; by left).
    apply list_elem_of_filter in Hf as [Hid Hin]. by apply (Hno u).
Qed.

Lemma getUser_Some (d : Db) (id : string) (u : User) :
  getUser d id = Some u → u ∈ users d ∧ user_id u = id.
Proof.
  unfold getUser. intros H%head_Some_elem_of%list_elem_of_filter. tauto.
Qed.

(** What the resolve handler does for a doctor. *)
Lemma alerts_resolve_doctor (now : Z) (sub alertId : string) (w : World)
    (doctor : User) :
  getUser (db w) sub = Some doctor →
  user_role doctor = doctor_role →
  alerts_resolve now sub alertId w
  = (respond 200 Success,
     with_db {| users := users (db w); patients := patients (db w);
                ecgReadings := ecgReadings (db w);
                healthAlerts :=
                  resolved_alerts now alertId (user_id doctor)
                    (healthAlerts (db w));
                alertSettings := alertSettings (db w) |} w).
Proof.
  intros Huser Hrole. unfold alerts_resolve. rewrite Huser.
  rewrite decide_True by done.
  rewrite markAlertAsResolved_user; [done|].
  apply getUser_Some in Huser as [Hin Hid]. by exists doctor.
Qed.

(** C5 (as amended). The resolve operation does not fail on an unknown
    alert identifier: a doctor always receives the success
    acknowledgment, and when no alert has the identifier the state is left
    as it was. When the identifier exists, that alert gets
    isResolved = true, the doctor's identity as resolver and the current
    time as resolution timestamp; every other alert is untouched. *)
Theorem C5_resolve_acknowledges_and_marks
    (now : Z) (sub alertId : string) (w : World) (doctor : User) :
  getUser (db w) sub = Some doctor →
  user_role doctor = doctor_role →
  (alerts_resolve now sub alertId w).1 = respond 200 Success
  ∧ ((∀ a, a ∈ healthAlerts (db w) → alert_id a ≠ alertId) →
     (alerts_resolve now sub alertId w).2 = w)
  ∧ length (healthAlerts (db (alerts_resolve now sub alertId w).2))
    = length (healthAlerts (db w))
  ∧ (∀ i a, healthAlerts (db w) !! i = Some a → alert_id a = alertId →
     ∃ a', healthAlerts (db (alerts_resolve now sub alertId w).2) !! i
           = Some a'
           ∧ Spec.resolved_by (user_id doctor) now a a')
  ∧ (∀ i a, healthAlerts (db w) !! i = Some a → alert_id a ≠ alertId →
     healthAlerts (db (alerts_resolve now sub alertId w).2) !! i = Some a).
Proof.
  intros Huser Hrole.
  rewrite (alerts_resolve_doctor now sub alertId w doctor Huser Hrole).
  cbn [fst snd]. unfold with_db. cbn [db healthAlerts].
  split; [done|]. split; [|split; [|split]].
  - intros Hnone. rewrite resolved_alerts_unknown by done.
    by destruct w as [[] ? ? ? ?].
  - apply length_fmap.
  - intros i a Hi Hid. rewrite resolved_alerts_lookup, Hi. simpl.
    rewrite decide_True by done.
    eexists. split; [done|]. apply set_resolved_resolved_by.
  - intros i a Hi Hid. rewrite resolved_alerts_lookup, Hi. simpl.
    by rewrite decide_False.
Qed.

(** C5 at work: Dr Hopper resolves the alert raised for Ada. *)
Lemma C5_resolve_acknowledges_and_marks_witness :
  getUser (db world_after_alert) "u-grace" = Some grace
  ∧ user_role grace = doctor_role
  ∧ (alerts_resolve 2000 "u-grace" "a-1" world_after_alert).1
    = respond 200 Success
  ∧ ((∀ a, a ∈ healthAlerts (db world_after_alert) → alert_id a ≠ "a-1") →
     (alerts_resolve 2000 "u-grace" "a-1" world_after_alert).2
     = world_after_alert)
  ∧ length
      (healthAlerts
         (db (alerts_resolve 2000 "u-grace" "a-1" world_after_alert).2))
    = length (healthAlerts (db world_after_alert))
  ∧ (∀ i a, healthAlerts (db world_after_alert) !! i = Some a →
     alert_id a = "a-1" →
     ∃ a', healthAlerts
             (db (alerts_resolve 2000 "u-grace" "a-1"
                    world_after_alert).2) !! i
           = Some a'
           ∧ Spec.resolved_by "u-grace" 2000 a a')
  ∧ (∀ i a, healthAlerts (db world_after_alert) !! i = Some a →
     alert_id a ≠ "a-1" →
     healthAlerts
       (db (alerts_resolve 2000 "u-grace" "a-1" world_after_alert).2) !! i
     = Some a).
Proof.
  split; [reflexivity|]. split; [reflexivity|].
  exact (C5_resolve_acknowledges_and_marks 2000 "u-grace" "a-1"
           world_after_alert grace eq_refl eq_refl).
Defined.

(** C5 as the specification words it fails: no alert is called "a-404",
    yet the doctor who resolves it is answered 200 with the success
    acknowledgment (not 404), and nothing changes. *)
Lemma C5_unknown_alert_counterexample :
  (∀ a, a ∈ healthAlerts (db world_after_alert) → alert_id a ≠ "a-404")
  ∧ alerts_resolve 2000 "u-grace" "a-404" world_after_alert
    = (respond 200 Success, world_after_alert)
  ∧ status (alerts_resolve 2000 "u-grace" "a-404" world_after_alert).1
    ≠ 404.
Proof.
  split; [|split].
  - intros a Ha. apply list_elem_of_singleton in Ha. by subst a.
  - reflexivity.
  - discriminate.
Qed.

(** C6. With resolvers that are users, resolving an alert a second time
    gives exactly the store that the second resolution alone gives: the
    alert is resolved, with the second resolver's identity and timestamp in
    place of the first. No resolution turns a resolved alert of the table
    back into an unresolved one. *)
Theorem C6_second_resolution_wins
    (now1 now2 : Z) (alertId who1 who2 : string) (d : Db) :
  (∃ u, u ∈ users d ∧ user_id u = who1) →
  (∃ u, u ∈ users d ∧ user_id u = who2) →
  ∃ once twice,
    markAlertAsResolved now1 alertId who1 d = Some once
    ∧ markAlertAsResolved now2 alertId who2 once = Some twice
    ∧ markAlertAsResolved now2 alertId who2 d = Some twice
    ∧ Forall (λ a, alert_id a = alertId →
                   alert_isResolved a = true
                   ∧ alert_resolvedBy a = Some who2
                   ∧ alert_resolvedAt a = Some now2)
        (healthAlerts twice)
    ∧ Forall2 Spec.stays_resolved (healthAlerts d) (healthAlerts once)
    ∧ Forall2 Spec.stays_resolved (healthAlerts once) (healthAlerts twice)
    ∧ (∀ now alertId' who d' d'',
         markAlertAsResolved now alertId' who d' = Some d'' →
         Forall2 Spec.stays_resolved (healthAlerts d') (healthAlerts d'')).
Proof.
  intros Hwho1 Hwho2.
  do 2 eexists.
  split; [by apply markAlertAsResolved_user|].
  split; [by apply markAlertAsResolved_user|].
  simpl. rewrite resolved_alerts_twice.
  split; [by apply markAlertAsResolved_user|]. simpl.
  split; [|split; [|split]].
  - unfold resolved_alerts.
    apply Forall_fmap, Forall_forall. intros a _. simpl.
    case_decide; [done|]. intros; done.
  - apply resolved_alerts_stays_resolved.
  - rewrite <- (resolved_alerts_twice now1 now2 alertId who1 who2).
    apply resolved_alerts_stays_resolved.
  - intros now alertId' who d' d'' ->%markAlertAsResolved_Some. simpl.
    apply resolved_alerts_stays_resolved.
Qed.

(** C6 at work: Ada's alert, resolved by Dr Hopper at 2000 and again by
    Dr Turing at 3000. *)
Lemma C6_second_resolution_wins_witness :
  (∃ u, u ∈ users (db Ward.clinic) ∧ user_id u = "u-grace")
  ∧ (∃ u, u ∈ users (db Ward.clinic) ∧ user_id u = "u-alan")
  ∧ ∃ once twice,
      markAlertAsResolved 2000 "a-1" "u-grace" (db Ward.clinic) = Some once
      ∧ markAlertAsResolved 3000 "a-1" "u-alan" once = Some twice
      ∧ markAlertAsResolved 3000 "a-1" "u-alan" (db Ward.clinic) = Some twice
      ∧ Forall (λ a, alert_id a = "a-1" →
                     alert_isResolved a = true
                     ∧ alert_resolvedBy a = Some "u-alan"
                     ∧ alert_resolvedAt a = Some 3000)
          (healthAlerts twice)
      ∧ Forall2 Spec.stays_resolved
          (healthAlerts (db Ward.clinic)) (healthAlerts once)
      ∧ Forall2 Spec.stays_resolved (healthAlerts once) (healthAlerts twice)
      ∧ (∀ now alertId' who d' d'',
           markAlertAsResolved now alertId' who d' = Some d'' →
           Forall2 Spec.stays_resolved (healthAlerts d') (healthAlerts d'')).
Proof.
  assert (∃ u, u ∈ users (db Ward.clinic) ∧ user_id u = "u-grace") as H1.
  { exists grace. split; [|reflexivity]. right. by left. }
  assert (∃ u, u ∈ users (db Ward.clinic) ∧ user_id u = "u-alan") as H2.
  { exists Ward.alan. split; [|reflexivity]. right. right. by left. }
  split; [exact H1|]. split; [exact H2|].
  exact (C6_second_resolution_wins 2000 3000 "a-1" "u-grace" "u-alan"
           (db Ward.clinic) H1 H2).
Defined.

(** The alert of the clinic after the two resolutions; and a resolver who
    is no user is refused, the first resolution staying as it is. *)
Example resolve_twice_example :
  (∃ once twice a,
      markAlertAsResolved 2000 "a-1" "u-grace" (db Ward.clinic) = Some once
      ∧ markAlertAsResolved 3000 "a-1" "u-alan" once = Some twice
      ∧ healthAlerts twice = [a]
      ∧ alert_isResolved a = true
      ∧ alert_resolvedBy a = Some "u-alan"
      ∧ alert_resolvedAt a = Some 3000)
  ∧ (∃ once,
        markAlertAsResolved 2000 "a-1" "u-grace" (db Ward.clinic) = Some once
        ∧ markAlertAsResolved 3000 "a-1" "u-nobody" once = None).
Proof.
  split.
  - do 3 eexists. split; [reflexivity|]. split; [reflexivity|].
    by repeat split.
  - eexists. split; reflexivity.
Qed.

End Resolution.

(** ** The registry of live connections *)

Section Registry.
Import Schema Storage Routes Fixture.

(** A connection that names its user installs the listeners that close
    over that name, and takes the user's entry. *)
Lemma ws_on_connection_registers (ws : WebSocket) (uid : string) (w : World) :
  uid ≠ "" →
  wsClients (ws_on_connection ws (Some uid) w) !! uid = Some ws
  ∧ listeners (ws_on_connection ws (Some uid) w) !! ws = Some uid.
Proof.
  intros Hne. unfold ws_on_connection. simpl.
  destruct (String.eqb_spec uid ""); [done|]. simpl.
  by rewrite !lookup_insert_eq.
Qed.

(** C7 (as amended). When a live connection that registered an identity
    closes or errors, the registry entry of that identity is removed,
    whichever channel handle it maps to at that moment; the entries of
    other identities stay in place. *)
Theorem C7_close_removes_identity_entry
    (ws : WebSocket) (uid : string) (w : World) :
  listeners w !! ws = Some uid →
  wsClients (ws_on_close ws w) !! uid = None
  ∧ wsClients (ws_on_error ws w) !! uid = None
  ∧ (∀ other, other ≠ uid →
       wsClients (ws_on_close ws w) !! other = wsClients w !! other
       ∧ wsClients (ws_on_error ws w) !! other = wsClients w !! other).
Proof.
  intros Hl. unfold ws_on_close, ws_on_error. simpl. rewrite Hl. simpl.
  split; [apply lookup_delete_eq|]. split; [apply lookup_delete_eq|].
  intros other Hother. by rewrite lookup_delete_ne.
Qed.

(** C7 at work: the first of Ada's two tabs goes away. *)
Lemma C7_close_removes_identity_entry_witness :
  listeners two_tabs !! 1%nat = Some "u-ada"
  ∧ wsClients (ws_on_close 1%nat two_tabs) !! "u-ada" = None
  ∧ wsClients (ws_on_error 1%nat two_tabs) !! "u-ada" = None
  ∧ (∀ other, other ≠ "u-ada" →
       wsClients (ws_on_close 1%nat two_tabs) !! other
       = wsClients two_tabs !! other
       ∧ wsClients (ws_on_error 1%nat two_tabs) !! other
         = wsClients two_tabs !! other).
Proof.
  split; [reflexivity|].
  exact (C7_close_removes_identity_entry 1%nat "u-ada" two_tabs eq_refl).
Defined.

(** C7 as the specification words it fails: the registry maps Ada to her
    second tab (socket 2), the first tab (socket 1) closes or errors, and
    the entry for socket 2 is gone although socket 2 is still open. *)
Lemma C7_stale_close_counterexample :
  wsClients two_tabs !! "u-ada" = Some 2%nat
  ∧ 2%nat ∈ openSockets (ws_on_close 1%nat two_tabs)
  ∧ wsClients (ws_on_close 1%nat two_tabs) !! "u-ada" ≠ Some 2%nat
  ∧ wsClients (ws_on_error 1%nat two_tabs) !! "u-ada" ≠ Some 2%nat.
Proof.
  split; [reflexivity|]. split; [|split].
  - by vm_compute.
  - by vm_compute.
  - by vm_compute.
Qed.

End Registry.

(** ** What a submission leaves alone, and what it delivers *)

Section Delivery.
Import Schema Storage Routes Rows Props.

Lemma send_to_frame (id : string) (m : AlertMessage) (w : World) :
  wsClients (send_to id m w) = wsClients w
  ∧ listeners (send_to id m w) = listeners w
  ∧ openSockets (send_to id m w) = openSockets w.
Proof.
  unfold send_to. destruct (wsClients w !! id); [|done]. by case_decide.
Qed.

Lemma send_to_trace (id : string) (m : AlertMessage) (w : World) :
  trace (send_to id m w)
  = trace w ++ match wsClients w !! id with
               | Some ws => if decide (ws ∈ openSockets w)
                            then [WsSend ws m] else []
               | None => []
               end.
Proof.
  unfold send_to. destruct (wsClients w !! id); [|by rewrite app_nil_r].
  case_decide; [done|by rewrite app_nil_r].
Qed.

Lemma broadcastAlert_frame (a : HealthAlert) (p : PatientWithUser) (w : World) :
  wsClients (broadcastAlert a p w) = wsClients w
  ∧ listeners (broadcastAlert a p w) = listeners w
  ∧ openSockets (broadcastAlert a p w) = openSockets w.
Proof.
  unfold broadcastAlert. destruct (JS.truthy_str _).
  - destruct (send_to_frame s
               {| msg_alert := a;
                  msg_patient_id := patient_id (pw_patient p);
                  msg_patient_name :=
                    interp_null (user_firstName (pw_user p)) +:+ " "
                    +:+ interp_null (user_lastName (pw_user p)) |}
               (send_to (patient_userId (pw_patient p))
                  {| msg_alert := a;
                     msg_patient_id := patient_id (pw_patient p);
                     msg_patient_name :=
                       interp_null (user_firstName (pw_user p)) +:+ " "
                       +:+ interp_null (user_lastName (pw_user p)) |} w))
      as (-> & -> & ->).
    apply send_to_frame.
  - apply send_to_frame.
Qed.

(** The message [broadcastAlert] serialises. *)
Lemma broadcastAlert_trace (a : HealthAlert) (p : PatientWithUser) (w : World) :
  ∃ m, msg_alert m = a
       ∧ msg_patient_id m = patient_id (pw_patient p)
       ∧ trace (broadcastAlert a p w)
         = trace w
           ++ match wsClients w !! patient_userId (pw_patient p) with
              | Some ws => if decide (ws ∈ openSockets w)
                           then [WsSend ws m] else []
              | None => []
              end
           ++ match JS.truthy_str (patient_doctorId (pw_patient p)) with
              | Some doctorId =>
                match wsClients w !! doctorId with
                | Some ws => if decide (ws ∈ openSockets w)
                             then [WsSend ws m] else []
                | None => []
                end
              | None => []
              end.
Proof.
  eexists. split; [|split]; [| |unfold broadcastAlert].
  3: { destruct (JS.truthy_str _) as [doctorId|].
       - rewrite !send_to_trace.
         destruct (send_to_frame (patient_userId (pw_patient p))
                     {| msg_alert := a;
                        msg_patient_id := patient_id (pw_patient p);
                        msg_patient_name :=
                          interp_null (user_firstName (pw_user p)) +:+ " "
                          +:+ interp_null (user_lastName (pw_user p)) |} w)
           as (-> & _ & ->).
         by rewrite <- app_assoc.
       - rewrite send_to_trace. by rewrite app_nil_r. }
  all: done.
Qed.


Lemma pushes_reachable (w : World) (id : string) (m : AlertMessage) :
  pushes match wsClients w !! id with
         | Some ws => if decide (ws ∈ openSockets w)
                      then [WsSend ws m] else []
         | None => []
         end
  = (λ ws, (ws, m)) <$> reachable_socket w id.
Proof.
  unfold reachable_socket. destruct (wsClients w !! id); [|done].
  by case_decide.
Qed.

(** The world an abnormal submission of a known patient leaves. *)
Lemma ecg_submit_abnormal_world
    (now : Z) (readingId alertId : string) (req : SubmitBody) (w : World)
    (patient : PatientWithUser) :
  getPatientWithUser (db w) (body_patientId req) = Some patient →
  fits_int4 (body_heartRate req) = true →
  isNormal (body_heartRate req) (body_rhythm req) = false →
  let settings := getAlertSettingsByPatientId (db w) (body_patientId req) in
  let alert := alert_row now readingId alertId req settings in
  ∃ w2, (ecg_submit now readingId alertId req w).2
        = broadcastAlert alert patient w2
        ∧ db w2 = {| users := users (db w);
                     patients := patients (db w);
                     ecgReadings :=
                       ecgReadings (db w) ++ [reading_row now readingId req];
                     healthAlerts := healthAlerts (db w) ++ [alert];
                     alertSettings := alertSettings (db w) |}
        ∧ wsClients w2 = wsClients w
        ∧ listeners w2 = listeners w
        ∧ openSockets w2 = openSockets w
        ∧ trace w2
          = trace w
            ++ (if JS.truthy_bool (settings ≫= enableWhatsAppAlerts)
                   || JS.truthy_bool (settings ≫= enableSmsAlerts)
                then [SendNotifications (patient_id (pw_patient patient))
                        alertId]
                else []).
Proof.
  intros Hfound Hfits Hab settings alert.
  unfold ecg_submit, createEcgReading. rewrite Hfound.
  cbn -[broadcastAlert sendNotifications]. rewrite Hfits, Hab.
  cbn -[broadcastAlert sendNotifications getAlertSettingsByPatientId].
  change (getAlertSettingsByPatientId _ (body_patientId req)) with settings.
  unfold alert, alert_row, reading_row. rewrite Hab.
  destruct (alertDecision _ _ settings) as [ty sev].
  cbn -[broadcastAlert sendNotifications].
  destruct (_ || _); eexists; (split; [reflexivity|]);
    repeat split; by rewrite ?app_nil_r.
Qed.

Lemma ecg_submit_keeps
    (now : Z) (readingId alertId : string) (req : SubmitBody) (w : World) :
  users (db (ecg_submit now readingId alertId req w).2) = users (db w)
  ∧ patients (db (ecg_submit now readingId alertId req w).2)
    = patients (db w)
  ∧ alertSettings (db (ecg_submit now readingId alertId req w).2)
    = alertSettings (db w)
  ∧ wsClients (ecg_submit now readingId alertId req w).2 = wsClients w
  ∧ listeners (ecg_submit now readingId alertId req w).2 = listeners w
  ∧ openSockets (ecg_submit now readingId alertId req w).2 = openSockets w.
Proof.
  destruct (getPatientWithUser (db w) (body_patientId req)) as [p|] eqn:Hp.
  2: { unfold ecg_submit. by rewrite Hp. }
  destruct (fits_int4 (body_heartRate req)) eqn:Hfits.
  2: { by rewrite (ecg_submit_refused now readingId alertId req w p Hp Hfits). }
  destruct (isNormal (body_heartRate req) (body_rhythm req)) eqn:Hn.
  - unfold ecg_submit, createEcgReading. rewrite Hp. simpl.
    by rewrite Hfits, Hn.
  - destruct (ecg_submit_abnormal_world now readingId alertId req w p
                Hp Hfits Hn)
      as (w2 & -> & Hdb & Hc & Hl & Ho & _).
    destruct (broadcastAlert_frame
                (alert_row now readingId alertId req
                   (getAlertSettingsByPatientId (db w) (body_patientId req)))
                p w2) as (-> & -> & ->).
    by rewrite broadcastAlert_db, Hdb.
Qed.

Local Ltac nothing_appended :=
  exists []; rewrite app_nil_r; repeat split; simpl;
  solve [done | lia | constructor].

(** X1. Whatever is submitted, the handler leaves the users, patients and
    settings tables, the registry, the listeners and the set of open
    sockets as they were; it adds at most one reading and at most one
    alert (unresolved) after the rows already stored, which it neither
    changes nor deletes; and it only appends to the effects performed. *)
Theorem ecg_submit_frame
    (now : Z) (readingId alertId : string) (req : SubmitBody) (w : World) :
  users (db (ecg_submit now readingId alertId req w).2) = users (db w)
  ∧ patients (db (ecg_submit now readingId alertId req w).2)
    = patients (db w)
  ∧ alertSettings (db (ecg_submit now readingId alertId req w).2)
    = alertSettings (db w)
  ∧ wsClients (ecg_submit now readingId alertId req w).2 = wsClients w
  ∧ listeners (ecg_submit now readingId alertId req w).2 = listeners w
  ∧ openSockets (ecg_submit now readingId alertId req w).2 = openSockets w
  ∧ (∃ rs, ecgReadings (db (ecg_submit now readingId alertId req w).2)
           = ecgReadings (db w) ++ rs
           ∧ (length rs ≤ 1)%nat)
  ∧ (∃ alerts, healthAlerts (db (ecg_submit now readingId alertId req w).2)
               = healthAlerts (db w) ++ alerts
               ∧ (length alerts ≤ 1)%nat
               ∧ Forall (λ a, alert_isResolved a = false) alerts)
  ∧ (∃ es, trace (ecg_submit now readingId alertId req w).2
           = trace w ++ es).
Proof.
  destruct (getPatientWithUser (db w) (body_patientId req)) as [p|] eqn:Hp.
  2: { unfold ecg_submit. rewrite Hp. simpl.
       repeat split; try done; nothing_appended. }
  destruct (fits_int4 (body_heartRate req)) eqn:Hfits.
  2: { rewrite (ecg_submit_refused now readingId alertId req w p Hp Hfits).
       simpl. repeat split; try done; nothing_appended. }
  destruct (isNormal (body_heartRate req) (body_rhythm req)) eqn:Hn.
  - unfold ecg_submit, createEcgReading. rewrite Hp. simpl.
    rewrite Hfits, Hn. simpl.
    repeat split; try done; [|nothing_appended..].
    eexists. split; [done|]. simpl. lia.
  - destruct (ecg_submit_abnormal_world now readingId alertId req w p
                Hp Hfits Hn)
      as (w2 & -> & Hdb & Hc & Hl & Ho & Ht).
    destruct (broadcastAlert_frame
                (alert_row now readingId alertId req
                   (getAlertSettingsByPatientId (db w) (body_patientId req)))
                p w2) as (-> & -> & ->).
    rewrite broadcastAlert_db, Hdb. simpl.
    repeat split; try done.
    + eexists. split; [done|]. simpl. lia.
    + eexists. split; [done|]. split; [simpl; lia|]. by repeat constructor.
    + destruct (broadcastAlert_trace
                  (alert_row now readingId alertId req
                     (getAlertSettingsByPatientId (db w)
                        (body_patientId req))) p w2)
        as (m & _ & _ & ->).
      rewrite Ht, <- !app_assoc. by eexists.
Qed.


Lemma reachable_socket_frame (w w' : World) (id : string) :
  wsClients w' = wsClients w → openSockets w' = openSockets w →
  reachable_socket w' id = reachable_socket w id.
Proof. intros Hc Ho. unfold reachable_socket. by rewrite Hc, Ho. Qed.

Local Ltac not_among H :=
  repeat (apply elem_of_cons in H as [H|H]; [discriminate|]);
  by apply elem_of_nil in H.

(** The effects of an abnormal submission, in the order they happen. *)
Lemma ecg_submit_abnormal_trace
    (now : Z) (readingId alertId : string) (req : SubmitBody) (w : World)
    (patient : PatientWithUser) :
  getPatientWithUser (db w) (body_patientId req) = Some patient →
  fits_int4 (body_heartRate req) = true →
  isNormal (body_heartRate req) (body_rhythm req) = false →
  let settings := getAlertSettingsByPatientId (db w) (body_patientId req) in
  ∃ m to_patient to_doctor,
    msg_alert m = alert_row now readingId alertId req settings
    ∧ msg_patient_id m = patient_id (pw_patient patient)
    ∧ pushes to_patient
      = (λ ws, (ws, m))
        <$> reachable_socket w (patient_userId (pw_patient patient))
    ∧ pushes to_doctor
      = (λ ws, (ws, m))
        <$> match JS.truthy_str (patient_doctorId (pw_patient patient)) with
            | Some doctorId => reachable_socket w doctorId
            | None => []
            end
    ∧ (∀ p a, SendNotifications p a ∉ to_patient ++ to_doctor)
    ∧ trace (ecg_submit now readingId alertId req w).2
      = trace w
        ++ (if JS.truthy_bool (settings ≫= enableWhatsAppAlerts)
               || JS.truthy_bool (settings ≫= enableSmsAlerts)
            then [SendNotifications (patient_id (pw_patient patient)) alertId]
            else [])
        ++ to_patient ++ to_doctor.
Proof.
  intros Hfound Hfits Hab settings. subst settings.
  destruct (ecg_submit_abnormal_world now readingId alertId req w patient
              Hfound Hfits Hab) as (w2 & -> & _ & Hc & _ & Ho & Ht).
  destruct (broadcastAlert_trace
              (alert_row now readingId alertId req
                 (getAlertSettingsByPatientId (db w) (body_patientId req)))
              patient w2)
    as (m & Hm1 & Hm2 & ->).
  rewrite Ht, Hc, Ho.
  exists m. do 2 eexists.
  split; [done|]. split; [done|].
  split; [apply pushes_reachable|].
  split; [|split; [|by rewrite <- !app_assoc]].
  - destruct (JS.truthy_str _); [apply pushes_reachable|done].
  - intros p a [Hin|Hin]%elem_of_app.
    + destruct (wsClients w !! _); [case_decide|]; not_among Hin.
    + destruct (JS.truthy_str _); [|not_among Hin].
      destruct (wsClients w !! _); [case_decide|]; not_among Hin.
Qed.

(** X2. [sendNotifications] runs for an abnormal reading exactly when the
    patient has a settings row whose WhatsApp or SMS switch is on, and then
    once, for this patient and this alert, before any push. A patient
    without a settings row is never notified off-channel, although the
    schema defaults of both switches are true. *)
Theorem notifications_need_settings_row
    (now : Z) (readingId alertId : string) (req : SubmitBody) (w : World)
    (patient : PatientWithUser) :
  getPatientWithUser (db w) (body_patientId req) = Some patient →
  fits_int4 (body_heartRate req) = true →
  isNormal (body_heartRate req) (body_rhythm req) = false →
  ∃ notified rest,
    trace (ecg_submit now readingId alertId req w).2
    = trace w ++ notified ++ rest
    ∧ (∀ p a, SendNotifications p a ∉ rest)
    ∧ (notified = []
       ∨ notified
         = [SendNotifications (patient_id (pw_patient patient)) alertId])
    ∧ (notified ≠ []
       ↔ ∃ row,
           getAlertSettingsByPatientId (db w) (body_patientId req) = Some row
           ∧ (enableWhatsAppAlerts row = Some true
              ∨ enableSmsAlerts row = Some true)).
Proof.
  intros Hfound Hfits Hab.
  destruct (ecg_submit_abnormal_trace now readingId alertId req w patient
              Hfound Hfits Hab) as (m & tp & td & _ & _ & _ & _ & Hno & ->).
  do 2 eexists. split; [done|]. split; [exact Hno|].
  destruct (getAlertSettingsByPatientId (db w) (body_patientId req))
    as [row|]; simpl.
  - destruct (enableWhatsAppAlerts row) as [[]|] eqn:Hw;
      destruct (enableSmsAlerts row) as [[]|] eqn:Hs; simpl;
      (split; [by eauto|]);
      (split;
       [intros Hne; first [done | exists row; split; [done|]; by eauto]
       |intros (row' & [= <-] & [?|?]); first [done | congruence]]).
  - split; [by left|]. split; [done|]. intros (row' & [=] & _).
Qed.

(** X2 at work: Ada has no settings row,
    her device reports 150 BPM. *)
Lemma notifications_need_settings_row_witness :
  getPatientWithUser (db (Fixture.world [])) "p-ada" = Some Fixture.ada_record
  ∧ fits_int4 150 = true
  ∧ isNormal 150 (Some "normal") = false
  ∧ ∃ notified rest,
      trace (ecg_submit 1000 "r-1" "a-1"
               (Fixture.submission "p-ada" 150 (Some "normal"))
               (Fixture.world [])).2
      = trace (Fixture.world []) ++ notified ++ rest
      ∧ (∀ p a, SendNotifications p a ∉ rest)
      ∧ (notified = [] ∨ notified = [SendNotifications "p-ada" "a-1"])
      ∧ (notified ≠ []
         ↔ ∃ row,
             getAlertSettingsByPatientId (db (Fixture.world [])) "p-ada"
             = Some row
             ∧ (enableWhatsAppAlerts row = Some true
                ∨ enableSmsAlerts row = Some true)).
Proof.
  split; [reflexivity|]. split; [reflexivity|]. split; [reflexivity|].
  exact (notifications_need_settings_row 1000 "r-1" "a-1"
           (Fixture.submission "p-ada" 150 (Some "normal"))
           (Fixture.world []) Fixture.ada_record eq_refl eq_refl eq_refl).
Defined.

(** X3. The pushes of an abnormal submission go, in this order, to the
    socket registered under the patient's user id and to the socket
    registered under [patients.doctor_id] (when the patient has one), each
    only if that socket is open; every push carries the alert just stored.
    So there are at most two, none to a closed socket, and none to a doctor
    who is registered under another key than the doctor id. *)
Theorem pushes_follow_registry
    (now : Z) (readingId alertId : string) (req : SubmitBody) (w : World)
    (patient : PatientWithUser) :
  getPatientWithUser (db w) (body_patientId req) = Some patient →
  fits_int4 (body_heartRate req) = true →
  isNormal (body_heartRate req) (body_rhythm req) = false →
  ∃ new,
    trace (ecg_submit now readingId alertId req w).2 = trace w ++ new
    ∧ (pushes new).*1
      = reachable_socket w (patient_userId (pw_patient patient))
        ++ match JS.truthy_str (patient_doctorId (pw_patient patient)) with
           | Some doctorId => reachable_socket w doctorId
           | None => []
           end
    ∧ Forall (λ push,
                healthAlerts (db (ecg_submit now readingId alertId req w).2)
                = healthAlerts (db w) ++ [msg_alert push.2]
                ∧ msg_patient_id push.2 = patient_id (pw_patient patient))
        (pushes new).
Proof.
  intros Hfound Hfits Hab.
  destruct (ecg_submit_abnormal_trace now readingId alertId req w patient
              Hfound Hfits Hab) as (m & tp & td & Hm1 & Hm2 & Hp & Hd & Hno & ->).
  eexists. split; [done|].
  unfold pushes in *. rewrite !omap_app, Hp, Hd.
  assert (omap (λ e, match e with
                     | WsSend ws m => Some (ws, m)
                     | SendNotifications _ _ => None
                     end)
            (if JS.truthy_bool
                  (getAlertSettingsByPatientId (db w) (body_patientId req)
                   ≫= enableWhatsAppAlerts)
                || JS.truthy_bool
                     (getAlertSettingsByPatientId (db w) (body_patientId req)
                      ≫= enableSmsAlerts)
             then [SendNotifications (patient_id (pw_patient patient))
                     alertId]
             else []) = []) as ->.
  { by destruct (_ || _). }
  simpl. split.
  - rewrite fmap_app, <- !list_fmap_compose.
    by rewrite !(list_fmap_id).
  - apply Forall_app. split; apply Forall_fmap, Forall_forall;
      intros ws _; simpl; rewrite Hm1, Hm2;
      (split; [|done]);
      by apply ecg_submit_abnormal with (patient := patient).
Qed.

(** X3 at work: Ada watches in two tabs, the second
    holds the registration, and her device reports 150 BPM. *)
Lemma pushes_follow_registry_witness :
  getPatientWithUser (db Fixture.two_tabs) "p-ada" = Some Fixture.ada_record
  ∧ fits_int4 150 = true
  ∧ isNormal 150 (Some "normal") = false
  ∧ ∃ new,
      trace (ecg_submit 1000 "r-1" "a-1"
               (Fixture.submission "p-ada" 150 (Some "normal"))
               Fixture.two_tabs).2
      = trace Fixture.two_tabs ++ new
      ∧ (pushes new).*1
        = reachable_socket Fixture.two_tabs "u-ada" ++ []
      ∧ Forall (λ push,
                  healthAlerts
                    (db (ecg_submit 1000 "r-1" "a-1"
                           (Fixture.submission "p-ada" 150 (Some "normal"))
                           Fixture.two_tabs).2)
                  = healthAlerts (db Fixture.two_tabs) ++ [msg_alert push.2]
                  ∧ msg_patient_id push.2 = "p-ada")
          (pushes new).
Proof.
  split; [reflexivity|]. split; [reflexivity|]. split; [reflexivity|].
  exact (pushes_follow_registry 1000 "r-1" "a-1"
           (Fixture.submission "p-ada" 150 (Some "normal"))
           Fixture.two_tabs Fixture.ada_record eq_refl eq_refl eq_refl).
Defined.

End Delivery.

(** ** Reading back what was stored *)

Section ReadSide.
Import Schema Storage Routes Rows Props Queries Endpoints.

Lemma filter_none {A : Type} (P : A → Prop) `{!∀ x, Decision (P x)}
    (l : list A) :
  (∀ x, x ∈ l → ¬ P x) → filter P l = [].
Proof.
  induction l as [|x l IH]; intros Hnone; [done|].
  rewrite filter_cons_False by (apply Hnone; by left).
  apply IH. intros y Hy. apply Hnone. by right.
Qed.

Lemma filter_fmap_same {A : Type} (P : A → Prop) `{!∀ x, Decision (P x)}
    (f : A → A) (l : list A) :
  (∀ x, P (f x) ↔ P x) → filter P (f <$> l) = f <$> filter P l.
Proof.
  intros Hf. induction l as [|x l IH]; [done|].
  rewrite fmap_cons, !filter_cons.
  destruct (decide (P (f x))) as [H1|H1], (decide (P x)) as [H2|H2].
  - by rewrite fmap_cons, IH.
  - exfalso. by apply H2, Hf.
  - exfalso. by apply H1, Hf.
  - done.
Qed.

Lemma newer_first_transitive {A : Type} (key : A → Z) :
  Transitive (newer_first key).
Proof. intros a b c. unfold newer_first. lia. Qed.

Lemma newer_first_total {A : Type} (key : A → Z) : Total (newer_first key).
Proof. intros a b. unfold newer_first. lia. Qed.

Lemma order_by_desc_sorted {A : Type} (key : A → Z) (rows : list A) :
  StronglySorted (newer_first key) (order_by_desc key rows).
Proof.
  pose proof (newer_first_transitive key).
  pose proof (newer_first_total key).
  apply StronglySorted_merge_sort; apply _.
Qed.

Lemma order_by_desc_perm {A : Type} (key : A → Z) (rows : list A) :
  order_by_desc key rows ≡ₚ rows.
Proof. apply merge_sort_Permutation. Qed.

Lemma elem_of_order_by_desc {A : Type} (key : A → Z) (rows : list A) (x : A) :
  x ∈ order_by_desc key rows ↔ x ∈ rows.
Proof. by rewrite order_by_desc_perm. Qed.

(** The head of a newest-first list is a row that is strictly newer than
    all the others, when there is one. *)
Lemma order_by_desc_head {A : Type} (key : A → Z) (rows : list A) (x : A) :
  x ∈ rows →
  (∀ y, y ∈ rows → y = x ∨ key y < key x) →
  head (order_by_desc key rows) = Some x.
Proof.
  intros Hx Hmax.
  pose proof (order_by_desc_sorted key rows) as Hsorted.
  apply (elem_of_order_by_desc key) in Hx.
  destruct (order_by_desc key rows) as [|h tl] eqn:E.
  { by apply elem_of_nil in Hx. }
  simpl. f_equal.
  assert (h ∈ rows) as Hh.
  { apply (elem_of_order_by_desc key). rewrite E. by left. }
  destruct (Hmax h Hh) as [->|Hlt]; [done|].
  apply elem_of_cons in Hx as [->|Hx]; [done|].
  apply StronglySorted_inv in Hsorted as [_ Hall].
  rewrite Forall_forall in Hall. specialize (Hall x Hx).
  unfold newer_first in Hall. lia.
Qed.

(** X4. [getLatestEcgReadings] answers with readings of the stored table
    that belong to the patient asked for, newest first, as many as there
    are up to [limit]; and whatever it leaves out is no newer than anything
    it returns. *)
Theorem latest_readings_are_the_newest
    (d : Db) (patientId : string) (limit : nat) :
  length (getLatestEcgReadings d patientId limit)
  = (limit `min`
     length (filter (λ r, reading_patientId r = patientId)
               (ecgReadings d)))%nat
  ∧ StronglySorted (newer_first reading_timestamp)
      (getLatestEcgReadings d patientId limit)
  ∧ (∀ r, r ∈ getLatestEcgReadings d patientId limit →
       r ∈ ecgReadings d ∧ reading_patientId r = patientId)
  ∧ (∀ r r', r ∈ getLatestEcgReadings d patientId limit →
       r' ∈ ecgReadings d → reading_patientId r' = patientId →
       r' ∉ getLatestEcgReadings d patientId limit →
       reading_timestamp r' ≤ reading_timestamp r).
Proof.
  unfold getLatestEcgReadings.
  set (mine := filter _ (ecgReadings d)).
  pose proof (order_by_desc_sorted reading_timestamp mine) as Hsorted.
  rewrite <- (take_drop limit (order_by_desc reading_timestamp mine))
    in Hsorted.
  split; [|split; [|split]].
  - by rewrite length_take, (Permutation_length
                               (order_by_desc_perm reading_timestamp mine)).
  - by eapply StronglySorted_app_1_l.
  - intros r Hr%elem_of_take. destruct Hr as (i & Hi%list_elem_of_lookup_2 & _).
    apply elem_of_order_by_desc, list_elem_of_filter in Hi. tauto.
  - intros r r' Hr Hr' Hp Hout.
    assert (r' ∈ drop limit (order_by_desc reading_timestamp mine)) as Hdrop.
    { assert (r' ∈ order_by_desc reading_timestamp mine) as Hin.
      { apply elem_of_order_by_desc, list_elem_of_filter. tauto. }
      rewrite <- (take_drop limit) in Hin.
      apply elem_of_app in Hin as [?|?]; done. }
    by apply (StronglySorted_app_1_elem_of _ _ _ r r') in Hsorted.
Qed.

(** X5. A reading the handler stores (known patient, heart rate within the
    integer column) can be fetched by its identifier when the identifier is
    new, and a reading that is stamped later than every reading the patient
    had comes first among the patient's latest readings. *)
Theorem submitted_reading_is_read_back
    (now : Z) (readingId alertId : string) (req : SubmitBody) (w : World)
    (patient : PatientWithUser) (limit : nat) :
  getPatientWithUser (db w) (body_patientId req) = Some patient →
  fits_int4 (body_heartRate req) = true →
  (∀ r, r ∈ ecgReadings (db w) → reading_id r ≠ readingId) →
  (∀ r, r ∈ ecgReadings (db w) →
     reading_patientId r = body_patientId req → reading_timestamp r < now) →
  getEcgReadingById (db (ecg_submit now readingId alertId req w).2) readingId
  = Some (reading_row now readingId req)
  ∧ head (getLatestEcgReadings (db (ecg_submit now readingId alertId req w).2)
            (body_patientId req) (S limit))
    = Some (reading_row now readingId req)
  ∧ (ecg_submit now readingId alertId req w).1
    = respond 200 (SuccessReading (reading_row now readingId req)).
Proof.
  intros Hfound Hfits Hfresh Hlater.
  pose proof (ecg_submit_readings now readingId alertId req w patient Hfound
                Hfits) as Hrs.
  split; [|split; [|by eapply ecg_submit_response]].
  - unfold getEcgReadingById. rewrite Hrs, filter_app.
    rewrite (filter_none _ (ecgReadings (db w))) by done.
    simpl. rewrite filter_cons. simpl. by rewrite decide_True.
  - unfold getLatestEcgReadings. rewrite Hrs.
    destruct (order_by_desc reading_timestamp _) as [|h tl] eqn:E;
      pose proof (order_by_desc_head reading_timestamp
                    (filter (λ r, reading_patientId r = body_patientId req)
                       (ecgReadings (db w) ++ [reading_row now readingId req]))
                    (reading_row now readingId req)) as Hhead;
      rewrite E in Hhead; simpl in *; apply Hhead.
    all: try (apply list_elem_of_filter; split; [done|];
              apply elem_of_app; right; by left).
    all: intros y [Hy1 [Hy|Hy]%elem_of_app]%list_elem_of_filter;
      [right; by apply Hlater
      |left; by apply list_elem_of_singleton in Hy].
Qed.

(** X5 at work: a second reading for Ada,
    one second after the first. *)
Lemma submitted_reading_is_read_back_witness :
  getPatientWithUser (db Fixture.world_after_alert) "p-ada"
  = Some Fixture.ada_record
  ∧ fits_int4 80 = true
  ∧ (∀ r, r ∈ ecgReadings (db Fixture.world_after_alert) →
       reading_id r ≠ "r-2")
  ∧ (∀ r, r ∈ ecgReadings (db Fixture.world_after_alert) →
       reading_patientId r = "p-ada" → reading_timestamp r < 2000)
  ∧ getEcgReadingById
      (db (ecg_submit 2000 "r-2" "a-2"
             (Fixture.submission "p-ada" 80 (Some "normal"))
             Fixture.world_after_alert).2) "r-2"
    = Some (reading_row 2000 "r-2"
              (Fixture.submission "p-ada" 80 (Some "normal")))
  ∧ head (getLatestEcgReadings
            (db (ecg_submit 2000 "r-2" "a-2"
                   (Fixture.submission "p-ada" 80 (Some "normal"))
                   Fixture.world_after_alert).2) "p-ada" 50)
    = Some (reading_row 2000 "r-2"
              (Fixture.submission "p-ada" 80 (Some "normal")))
  ∧ (ecg_submit 2000 "r-2" "a-2"
       (Fixture.submission "p-ada" 80 (Some "normal"))
       Fixture.world_after_alert).1
    = respond 200
        (SuccessReading
           (reading_row 2000 "r-2"
              (Fixture.submission "p-ada" 80 (Some "normal")))).
Proof.
  assert (∀ r, r ∈ ecgReadings (db Fixture.world_after_alert) →
            reading_id r ≠ "r-2") as Hfresh.
  { intros r Hr. apply list_elem_of_singleton in Hr. by subst r. }
  assert (∀ r, r ∈ ecgReadings (db Fixture.world_after_alert) →
            reading_patientId r = "p-ada" → reading_timestamp r < 2000)
    as Hlater.
  { intros r Hr _. apply list_elem_of_singleton in Hr. by subst r. }
  split; [reflexivity|]. split; [reflexivity|].
  split; [exact Hfresh|]. split; [exact Hlater|].
  exact (submitted_reading_is_read_back 2000 "r-2" "a-2"
           (Fixture.submission "p-ada" 80 (Some "normal"))
           Fixture.world_after_alert Fixture.ada_record 49
           eq_refl eq_refl Hfresh Hlater).
Defined.


Lemma getPatientWithUser_Some (d : Db) (patientId : string)
    (p : PatientWithUser) :
  getPatientWithUser d patientId = Some p →
  pw_patient p ∈ patients d
  ∧ patient_id (pw_patient p) = patientId
  ∧ pw_user p ∈ users d
  ∧ user_id (pw_user p) = patient_userId (pw_patient p).
Proof.
  unfold getPatientWithUser. intros H%head_Some_elem_of.
  apply list_elem_of_bind in H as (pt & H & Hpt%list_elem_of_filter).
  apply list_elem_of_bind in H as (u & H & Hu%list_elem_of_filter).
  apply list_elem_of_singleton in H. subst p. simpl. tauto.
Qed.

Lemma elem_of_getUnresolvedAlerts (d : Db) (row : AlertWithPatient) :
  row ∈ getUnresolvedAlerts d
  ↔ ap_alert row ∈ healthAlerts d
    ∧ alert_isResolved (ap_alert row) = false
    ∧ pw_patient (ap_patient row) ∈ patients d
    ∧ patient_id (pw_patient (ap_patient row))
      = alert_patientId (ap_alert row)
    ∧ pw_user (ap_patient row) ∈ users d
    ∧ user_id (pw_user (ap_patient row))
      = patient_userId (pw_patient (ap_patient row)).
Proof.
  unfold getUnresolvedAlerts.
  rewrite elem_of_order_by_desc, list_elem_of_bind. split.
  - intros (a & H & Ha%list_elem_of_filter).
    apply list_elem_of_bind in H as (p & H & Hp%list_elem_of_filter).
    apply list_elem_of_bind in H as (u & H & Hu%list_elem_of_filter).
    apply list_elem_of_singleton in H. subst row. simpl. tauto.
  - intros (Ha & Hunres & Hp & Hpid & Hu & Huid).
    destruct row as [a [p u]]. simpl in *.
    exists a. split; [|by apply list_elem_of_filter].
    apply list_elem_of_bind. exists p.
    split; [|by apply list_elem_of_filter].
    apply list_elem_of_bind. exists u.
    split; [by apply list_elem_of_singleton|by apply list_elem_of_filter].
Qed.

(** X6. The triage list of [getUnresolvedAlerts] holds exactly the stored
    alerts that are unresolved and whose patient and user rows exist, each
    joined with its own patient and that patient's user, newest first. *)
Theorem unresolved_alerts_listed (d : Db) :
  (∀ row, row ∈ getUnresolvedAlerts d
     ↔ ap_alert row ∈ healthAlerts d
       ∧ alert_isResolved (ap_alert row) = false
       ∧ pw_patient (ap_patient row) ∈ patients d
       ∧ patient_id (pw_patient (ap_patient row))
         = alert_patientId (ap_alert row)
       ∧ pw_user (ap_patient row) ∈ users d
       ∧ user_id (pw_user (ap_patient row))
         = patient_userId (pw_patient (ap_patient row)))
  ∧ StronglySorted (newer_first (λ row, alert_createdAt (ap_alert row)))
      (getUnresolvedAlerts d).
Proof.
  split.
  - intros row. apply elem_of_getUnresolvedAlerts.
  - apply order_by_desc_sorted.
Qed.

(** X7. Every alert the submission handler raises is at once on the
    doctors' triage list, joined with the patient the submission was for,
    and on that patient's own list of alerts. *)
Theorem raised_alert_is_listed
    (now : Z) (readingId alertId : string) (req : SubmitBody) (w : World)
    (patient : PatientWithUser) :
  getPatientWithUser (db w) (body_patientId req) = Some patient →
  fits_int4 (body_heartRate req) = true →
  isNormal (body_heartRate req) (body_rhythm req) = false →
  ∃ alert,
    healthAlerts (db (ecg_submit now readingId alertId req w).2)
    = healthAlerts (db w) ++ [alert]
    ∧ {| ap_alert := alert; ap_patient := patient |}
      ∈ getUnresolvedAlerts (db (ecg_submit now readingId alertId req w).2)
    ∧ alert
      ∈ getAlertsByPatientId (db (ecg_submit now readingId alertId req w).2)
          (body_patientId req).
Proof.
  intros Hfound Hfits Hab.
  pose proof (ecg_submit_abnormal now readingId alertId req w patient
                Hfound Hfits Hab) as Halerts.
  destruct (ecg_submit_keeps now readingId alertId req w)
    as (Hu & Hp & _).
  destruct (getPatientWithUser_Some _ _ _ Hfound) as (H1 & H2 & H3 & H4).
  eexists. split; [exact Halerts|]. split.
  - apply elem_of_getUnresolvedAlerts. simpl.
    rewrite Halerts, Hu, Hp.
    split; [apply elem_of_app; right; by left|]. tauto.
  - unfold getAlertsByPatientId.
    apply elem_of_order_by_desc, list_elem_of_filter.
    split; [done|]. rewrite Halerts. apply elem_of_app. right. by left.
Qed.

(** X7 at work: Ada at 150 BPM. *)
Lemma raised_alert_is_listed_witness :
  getPatientWithUser (db (Fixture.world [])) "p-ada" = Some Fixture.ada_record
  ∧ fits_int4 150 = true
  ∧ isNormal 150 (Some "normal") = false
  ∧ ∃ alert,
      healthAlerts
        (db (ecg_submit 1000 "r-1" "a-1"
               (Fixture.submission "p-ada" 150 (Some "normal"))
               (Fixture.world [])).2)
      = healthAlerts (db (Fixture.world [])) ++ [alert]
      ∧ {| ap_alert := alert; ap_patient := Fixture.ada_record |}
        ∈ getUnresolvedAlerts
            (db (ecg_submit 1000 "r-1" "a-1"
                   (Fixture.submission "p-ada" 150 (Some "normal"))
                   (Fixture.world [])).2)
      ∧ alert
        ∈ getAlertsByPatientId
            (db (ecg_submit 1000 "r-1" "a-1"
                   (Fixture.submission "p-ada" 150 (Some "normal"))
                   (Fixture.world [])).2) "p-ada".
Proof.
  split; [reflexivity|]. split; [reflexivity|]. split; [reflexivity|].
  exact (raised_alert_is_listed 1000 "r-1" "a-1"
           (Fixture.submission "p-ada" 150 (Some "normal"))
           (Fixture.world []) Fixture.ada_record eq_refl eq_refl eq_refl).
Defined.

Lemma unresolved_after_resolution (now : Z) (alertId who : string)
    (alerts : list HealthAlert) (a : HealthAlert) :
  a ∈ filter (λ a, alert_isResolved a = false)
        ((λ a, if decide (alert_id a = alertId)
               then set_resolved who now a else a) <$> alerts)
  ↔ a ∈ filter (λ a, alert_isResolved a = false) alerts
    ∧ alert_id a ≠ alertId.
Proof.
  rewrite !list_elem_of_filter, list_elem_of_fmap. split.
  - intros (Hunres & a0 & -> & Ha0).
    destruct (decide (alert_id a0 = alertId)); [done|]. tauto.
  - intros ((Hunres & Ha) & Hid). split; [done|].
    exists a. split; [|done]. by rewrite decide_False.
Qed.

(** X8. Once a doctor has resolved an alert, the triage list the doctors'
    endpoint answers with is the earlier one without the alerts of that
    identifier, nothing else leaving or entering it; and every patient's
    own list keeps its length, resolved alerts staying on record. *)
Theorem resolved_alert_leaves_triage
    (now : Z) (sub alertId : string) (w : World) (doctor : User) :
  getUser (db w) sub = Some doctor →
  user_role doctor = doctor_role →
  ∃ before after,
    doctor_alerts sub w = Json before
    ∧ doctor_alerts sub (alerts_resolve now sub alertId w).2 = Json after
    ∧ (∀ row, row ∈ after
         ↔ row ∈ before ∧ alert_id (ap_alert row) ≠ alertId)
    ∧ (∀ patientId,
         length (getAlertsByPatientId
                   (db (alerts_resolve now sub alertId w).2) patientId)
         = length (getAlertsByPatientId (db w) patientId)).
Proof.
  intros Huser Hrole.
  rewrite (alerts_resolve_doctor now sub alertId w doctor Huser Hrole).
  unfold doctor_alerts, resolved_alerts. rewrite Huser.
  rewrite decide_True by done. cbn [fst snd]. unfold with_db. cbn [db].
  match goal with
  | |- context [getUser ?d sub] =>
      change (getUser d sub) with (getUser (db w) sub)
  end.
  rewrite Huser, decide_True by done.
  do 2 eexists. split; [done|]. split; [done|]. split.
  - intros row. unfold getUnresolvedAlerts.
    rewrite !elem_of_order_by_desc, !list_elem_of_bind. split.
    + intros (a & Hrow & Ha). simpl in Ha.
      apply unresolved_after_resolution in Ha as [Ha Hid].
      assert (ap_alert row = a) as Hrowa.
      { simpl in Hrow.
        apply list_elem_of_bind in Hrow as (p & Hrow & _).
        apply list_elem_of_bind in Hrow as (u & Hrow & _).
        apply list_elem_of_singleton in Hrow. by subst row. }
      split; [by exists a|]. by rewrite Hrowa.
    + intros ((a & Hrow & Ha) & Hid).
      assert (ap_alert row = a) as Hrowa.
      { apply list_elem_of_bind in Hrow as (p & Hrow & _).
        apply list_elem_of_bind in Hrow as (u & Hrow & _).
        apply list_elem_of_singleton in Hrow. by subst row. }
      exists a. split; [done|]. simpl.
      apply unresolved_after_resolution. split; [done|]. by rewrite <- Hrowa.
  - intros patientId. unfold getAlertsByPatientId.
    rewrite !(Permutation_length (order_by_desc_perm _ _)). simpl.
    rewrite filter_fmap_same, length_fmap; [done|].
    intros a. by case_decide.
Qed.

(** X8 at work: Dr Hopper resolves Ada's
    alert. *)
Lemma resolved_alert_leaves_triage_witness :
  getUser (db Fixture.world_after_alert) "u-grace" = Some Fixture.grace
  ∧ user_role Fixture.grace = doctor_role
  ∧ ∃ before after,
      doctor_alerts "u-grace" Fixture.world_after_alert = Json before
      ∧ doctor_alerts "u-grace"
          (alerts_resolve 2000 "u-grace" "a-1" Fixture.world_after_alert).2
        = Json after
      ∧ (∀ row, row ∈ after
           ↔ row ∈ before ∧ alert_id (ap_alert row) ≠ "a-1")
      ∧ (∀ patientId,
           length (getAlertsByPatientId
                     (db (alerts_resolve 2000 "u-grace" "a-1"
                            Fixture.world_after_alert).2) patientId)
           = length (getAlertsByPatientId (db Fixture.world_after_alert)
                       patientId)).
Proof.
  split; [reflexivity|]. split; [reflexivity|].
  exact (resolved_alert_leaves_triage 2000 "u-grace" "a-1"
           Fixture.world_after_alert Fixture.grace eq_refl eq_refl).
Defined.

End ReadSide.

(** ** Alert settings: the upsert and its endpoint *)

Section Settings.
Import Schema Storage Routes Props Queries Endpoints.

Lemma head_filter_fmap {A : Type} (P : A → Prop) `{!∀ x, Decision (P x)}
    (f : A → A) (l : list A) :
  (∀ x, P (f x) ↔ P x) →
  head (filter P (f <$> l)) = f <$> head (filter P l).
Proof.
  intros Hf. rewrite filter_fmap_same by done.
  by destruct (filter P l).
Qed.

Lemma head_filter_None {A : Type} (P : A → Prop) `{!∀ x, Decision (P x)}
    (l : list A) :
  head (filter P l) = None → filter P l = [].
Proof. by destruct (filter P l). Qed.

(** What a successful upsert returns and leaves. *)
Lemma createOrUpdateAlertSettings_Some (id : string) (s : InsertAlertSettings)
    (d d' : Db) (row : AlertSettings) :
  createOrUpdateAlertSettings id s d = Some (row, d') →
  (∃ p, p ∈ patients d ∧ patient_id p = ins_s_patientId s)
  ∧ row = match getAlertSettingsByPatientId d (ins_s_patientId s) with
          | Some old => update_settings_row s old
          | None => insert_settings_row id s
          end
  ∧ d' = with_alertSettings
           match getAlertSettingsByPatientId d (ins_s_patientId s) with
           | Some _ =>
             (λ r, if decide (settings_patientId r = ins_s_patientId s)
                   then update_settings_row s r else r) <$> alertSettings d
           | None => alertSettings d ++ [insert_settings_row id s]
           end d.
Proof.
  unfold createOrUpdateAlertSettings, getAlertSettingsByPatientId.
  destruct (given_fits (ins_s_high s) && given_fits (ins_s_low s)); [|done].
  cbn [negb].
  destruct (filter _ (patients d)) as [|p ps] eqn:Hp; [done|].
  assert (p ∈ patients d ∧ patient_id p = ins_s_patientId s) as [? ?].
  { assert (p ∈ filter (λ p, patient_id p = ins_s_patientId s) (patients d))
      as Hin by (rewrite Hp; by left).
    apply list_elem_of_filter in Hin. tauto. }
  destruct (head _) as [old|]; intros [= <- <-]; eauto.
Qed.

Lemma createOrUpdateAlertSettings_lookup (id : string)
    (s : InsertAlertSettings) (d d' : Db) (row : AlertSettings) :
  createOrUpdateAlertSettings id s d = Some (row, d') →
  getAlertSettingsByPatientId d' (ins_s_patientId s) = Some row
  ∧ (∀ other, other ≠ ins_s_patientId s →
       getAlertSettingsByPatientId d' other
       = getAlertSettingsByPatientId d other).
Proof.
  intros (_ & -> & ->)%createOrUpdateAlertSettings_Some.
  destruct (getAlertSettingsByPatientId d (ins_s_patientId s)) as [old|] eqn:E;
    unfold getAlertSettingsByPatientId in *; simpl.
  - assert (settings_patientId old = ins_s_patientId s) as Hold.
    { apply head_Some_elem_of, list_elem_of_filter in E. tauto. }
    split.
    + rewrite head_filter_fmap, E.
      * simpl. by rewrite decide_True.
      * intros r. by case_decide.
    + intros other Hother. rewrite head_filter_fmap.
      * destruct (head (filter (λ r, settings_patientId r = other) _))
          as [r|] eqn:Er; [|done]. simpl.
        apply head_Some_elem_of, list_elem_of_filter in Er as [Er _].
        rewrite decide_False; [done|congruence].
      * intros r. case_decide; simpl; [|done]. split; congruence.
  - apply head_filter_None in E. split.
    + rewrite filter_app, E. simpl.
      by rewrite filter_cons_True.
    + intros other Hother.
      rewrite filter_app, (filter_cons_False _ (insert_settings_row id s))
        by (simpl; congruence).
      by rewrite filter_nil, app_nil_r.
Qed.

Lemma createOrUpdateAlertSettings_unique (id : string)
    (s : InsertAlertSettings) (d d' : Db) (row : AlertSettings) :
  createOrUpdateAlertSettings id s d = Some (row, d') →
  one_settings_row_per_patient d → one_settings_row_per_patient d'.
Proof.
  intros (_ & _ & ->)%createOrUpdateAlertSettings_Some.
  unfold one_settings_row_per_patient. simpl.
  destruct (getAlertSettingsByPatientId d (ins_s_patientId s)) as [old|] eqn:E;
    unfold getAlertSettingsByPatientId in E.
  - rewrite <- list_fmap_compose.
    assert (settings_patientId
            ∘ (λ r, if decide (settings_patientId r = ins_s_patientId s)
                    then update_settings_row s r else r)
            <$> alertSettings d
            = settings_patientId <$> alertSettings d) as ->; [|done].
    apply list_fmap_ext. intros i r _. simpl. by case_decide.
  - apply head_filter_None in E. intros Hnodup.
    rewrite fmap_app. apply NoDup_app. split; [done|]. split.
    + intros pid (r & -> & Hr)%list_elem_of_fmap Hin.
      apply list_elem_of_singleton in Hin. simpl in Hin.
      assert (r ∈ filter (λ r, settings_patientId r = ins_s_patientId s)
                    (alertSettings d)) as Hf
        by (by apply list_elem_of_filter).
      rewrite E in Hf. by apply elem_of_nil in Hf.
    + apply NoDup_singleton.
Qed.

(** X9. A successful upsert of alert settings is read back by
    [getAlertSettingsByPatientId] for that patient, leaves what is read
    for every other patient, keeps the table at one row per patient, and
    touches no other table. *)
Theorem settings_upsert_round_trip (id : string) (s : InsertAlertSettings)
    (d d' : Db) (row : AlertSettings) :
  createOrUpdateAlertSettings id s d = Some (row, d') →
  getAlertSettingsByPatientId d' (ins_s_patientId s) = Some row
  ∧ settings_patientId row = ins_s_patientId s
  ∧ (∀ other, other ≠ ins_s_patientId s →
       getAlertSettingsByPatientId d' other
       = getAlertSettingsByPatientId d other)
  ∧ (one_settings_row_per_patient d → one_settings_row_per_patient d')
  ∧ users d' = users d ∧ patients d' = patients d
  ∧ ecgReadings d' = ecgReadings d ∧ healthAlerts d' = healthAlerts d.
Proof.
  intros Hup.
  pose proof (createOrUpdateAlertSettings_lookup _ _ _ _ _ Hup) as [H1 H2].
  pose proof (createOrUpdateAlertSettings_unique _ _ _ _ _ Hup) as H3.
  apply createOrUpdateAlertSettings_Some in Hup as (_ & -> & ->).
  repeat split; try done.
  by destruct (getAlertSettingsByPatientId d (ins_s_patientId s)).
Qed.

(** X9 at work: a first row for Ada. *)
Lemma settings_upsert_round_trip_witness :
  createOrUpdateAlertSettings "s-ada" Ward.ada_write (db Ward.ward)
  = Some (Ward.ada_first_row,
          with_alertSettings
            (alertSettings (db Ward.ward) ++ [Ward.ada_first_row])
            (db Ward.ward))
  ∧ getAlertSettingsByPatientId
      (with_alertSettings
         (alertSettings (db Ward.ward) ++ [Ward.ada_first_row])
         (db Ward.ward)) "p-ada"
    = Some Ward.ada_first_row.
Proof.
  split; [reflexivity|].
  exact (proj1 (settings_upsert_round_trip "s-ada" Ward.ada_write
                  (db Ward.ward) _ _ eq_refl)).
Defined.


(** X10. After an upsert each settings column holds the value (or null)
    that was given; a key left out keeps what the patient's row held, and
    takes the column default (120, 50, on, on, on) only when the patient
    had no row. An existing row keeps its identifier. *)
Theorem settings_partial_write (id : string) (s : InsertAlertSettings)
    (d d' : Db) (row : AlertSettings) :
  createOrUpdateAlertSettings id s d = Some (row, d') →
  let prior := getAlertSettingsByPatientId d (ins_s_patientId s) in
  settings_id row = default id (settings_id <$> prior)
  ∧ highHeartRateThreshold row
    = written (ins_s_high s) (highHeartRateThreshold <$> prior) (Some 120)
  ∧ lowHeartRateThreshold row
    = written (ins_s_low s) (lowHeartRateThreshold <$> prior) (Some 50)
  ∧ enableIrregularRhythmAlerts row
    = written (ins_s_irregular s) (enableIrregularRhythmAlerts <$> prior)
        (Some true)
  ∧ enableWhatsAppAlerts row
    = written (ins_s_whatsapp s) (enableWhatsAppAlerts <$> prior) (Some true)
  ∧ enableSmsAlerts row
    = written (ins_s_sms s) (enableSmsAlerts <$> prior) (Some true).
Proof.
  intros (_ & -> & _)%createOrUpdateAlertSettings_Some prior.
  subst prior.
  destruct (getAlertSettingsByPatientId d (ins_s_patientId s)) as [old|];
    simpl; repeat split;
    by destruct s as [? [] [] [] [] []].
Qed.

(** X10 at work: Bob's row, thresholds 130/45 and
    everything on, receives only a new high threshold and the SMS switch. *)
Lemma settings_partial_write_witness :
  ∃ row d',
    createOrUpdateAlertSettings "s-new"
      {| ins_s_patientId := "p-bob"; ins_s_high := Value 90;
         ins_s_low := Absent; ins_s_irregular := Absent;
         ins_s_whatsapp := Absent; ins_s_sms := Value false |}
      (db Ward.ward) = Some (row, d')
    ∧ settings_id row = "s-bob"
    ∧ highHeartRateThreshold row = Some 90
    ∧ lowHeartRateThreshold row = Some 45
    ∧ enableIrregularRhythmAlerts row = Some true
    ∧ enableWhatsAppAlerts row = Some true
    ∧ enableSmsAlerts row = Some false.
Proof.
  do 2 eexists. split; [reflexivity|].
  exact (settings_partial_write "s-new"
           {| ins_s_patientId := "p-bob"; ins_s_high := Value 90;
              ins_s_low := Absent; ins_s_irregular := Absent;
              ins_s_whatsapp := Absent; ins_s_sms := Value false |}
           (db Ward.ward) _ _ eq_refl).
Defined.

Lemma as_patient_ok {A : Type} (sub : string) (w : World)
    (k : Patient → Reply A * World) (caller : User) (p : Patient) :
  getUser (db w) sub = Some caller →
  user_role caller = patient_role →
  getPatientByUserId (db w) (user_id caller) = Some p →
  as_patient sub w k = k p.
Proof.
  intros Hu Hr Hp. unfold as_patient. by rewrite Hu, decide_True, Hp.
Qed.

Lemma as_patient_failed {A : Type} (sub : string) (w : World)
    (k : Patient → Reply A * World) (code : Z) (message : string) :
  (∀ p, (k p).1 = Failed code message → (k p).2 = w) →
  (as_patient sub w k).1 = Failed code message →
  (as_patient sub w k).2 = w.
Proof.
  intros Hk. unfold as_patient.
  destruct (getUser (db w) sub) as [u|]; [|done].
  case_decide; [|done].
  destruct (getPatientByUserId (db w) (user_id u)); [apply Hk|done].
Qed.



(** X12. A PUT that is answered with an error has changed nothing: not for
    a caller who is no patient (403) or has no patient record (404), and
    not when the stored object is rejected (500), which is the case for a
    null [patientId] and for one that names no patient. *)
Theorem put_settings_failure_changes_nothing
    (settingsId sub : string) (body : SettingsBody) (w : World) :
  (∀ code message,
     (put_patient_alert_settings settingsId sub body w).1
     = Failed code message →
     (put_patient_alert_settings settingsId sub body w).2 = w)
  ∧ (∀ caller own,
       getUser (db w) sub = Some caller →
       user_role caller = patient_role →
       getPatientByUserId (db w) (user_id caller) = Some own →
       sb_patientId body = Null
       ∨ (∃ target, sb_patientId body = Value target
                    ∧ ∀ p, p ∈ patients (db w) → patient_id p ≠ target) →
       put_patient_alert_settings settingsId sub body w
       = (Failed 500 "Failed to update alert settings", w)).
Proof.
  split.
  - intros code message. unfold put_patient_alert_settings.
    apply as_patient_failed. intros p.
    destruct (sb_patientId body); try done;
      by destruct (createOrUpdateAlertSettings _ _ _) as [[? ?]|].
  - intros caller own Hu Hr Hown Hbad.
    unfold put_patient_alert_settings.
    rewrite (as_patient_ok _ _ _ caller own) by done.
    destruct Hbad as [->|(target & -> & Hnone)]; [done|].
    unfold createOrUpdateAlertSettings. simpl.
    destruct (negb _); [done|].
    by rewrite (filter_none _ (patients (db w))).
Qed.

End Settings.

(** ** Registration and the doctors' verification codes *)

Section Registration.
Import Schema Queries Endpoints.

Lemma code_refused_false (now : Z) (record : option DoctorCode) :
  code_refused now record = false
  ↔ ∃ c, record = Some c
         ∧ code_status c = Some code_active
         ∧ now ≤ code_expiryDate c.
Proof.
  unfold code_refused. destruct record as [c|].
  - rewrite orb_false_iff, negb_false_iff, bool_decide_eq_true.
    split.
    + intros [Hs Hn]. exists c. split; [done|]. split; [done|].
      destruct (Z.gtb_spec now (code_expiryDate c)); [done|lia].
    + intros (c' & [= <-] & Hs & Hn). split; [done|].
      destruct (Z.gtb_spec now (code_expiryDate c)); [lia|done].
  - split; [done|]. by intros (c & [=] & _).
Qed.

Lemma register_doctor_accepted (now : Z) (body : DoctorRegistration)
    (codes : list DoctorCode) (session : option PendingRegistration) :
  (register_doctor now body codes session).1 = RedirectToLogin
  ↔ code_refused now (getDoctorCodeByCode codes (dr_doctorCode body)) = false.
Proof.
  unfold register_doctor. by destruct (code_refused _ _).
Qed.

(** X13. A doctor's registration is taken up exactly when the table holds
    the code, the (first) record of that code has status active and the
    expiry date has not passed (the expiry instant itself still counts).
    Then the session holds the submitted details with the code, without
    the password; otherwise the answer is 400 and the session is the one
    before. *)
Theorem doctor_code_gate (now : Z) (body : DoctorRegistration)
    (codes : list DoctorCode) (session : option PendingRegistration) :
  ((register_doctor now body codes session).1 = RedirectToLogin
   ↔ ∃ c, getDoctorCodeByCode codes (dr_doctorCode body) = Some c
          ∧ code_status c = Some code_active
          ∧ now ≤ code_expiryDate c)
  ∧ ((register_doctor now body codes session).1 = RedirectToLogin
     ∧ (register_doctor now body codes session).2
       = Some (PendingDoctor (dr_email body) (dr_firstName body)
                 (dr_lastName body) (dr_medicalLicenseNumber body)
                 (dr_specialty body) (dr_hospital body) (dr_doctorCode body))
     ∨ register_doctor now body codes session
       = (Rejected 400 "Invalid or expired doctor code", session)).
Proof.
  split.
  - by rewrite register_doctor_accepted, code_refused_false.
  - unfold register_doctor. destruct (code_refused _ _); [by right|by left].
Qed.

(** What an accepted update leaves: every record of the code rewritten in
    place, the rest as it was. An update is refused only when it would
    write a [usedBy] that is no user into a record. *)
Lemma markDoctorCodeAsUsed_Some (us : list User) (now : Z)
    (code usedBy : string) (codes codes' : list DoctorCode) :
  markDoctorCodeAsUsed us now code usedBy codes = Some codes' →
  codes'
  = (λ c, if decide (code_code c = code) then set_used now usedBy c else c)
    <$> codes.
Proof.
  unfold markDoctorCodeAsUsed.
  destruct (filter (λ c, code_code c = code) codes),
           (filter (λ u, user_id u = usedBy) us); congruence.
Qed.

Lemma markDoctorCodeAsUsed_None (us : list User) (now : Z)
    (code usedBy : string) (codes : list DoctorCode) :
  markDoctorCodeAsUsed us now code usedBy codes = None
  ↔ (∃ c, c ∈ codes ∧ code_code c = code)
    ∧ ∀ u, u ∈ us → user_id u ≠ usedBy.
Proof.
  unfold markDoctorCodeAsUsed.
  destruct (filter (λ c, code_code c = code) codes) as [|c cs] eqn:Hc,
           (filter (λ u, user_id u = usedBy) us) as [|u us'] eqn:Hu.
  - split; [done|]. intros [(c & Hin & Hcode) _].
    assert (c ∈ filter (λ c, code_code c = code) codes) as Hf
      by (by apply list_elem_of_filter).
    rewrite Hc in Hf. by apply elem_of_nil in Hf.
  - split; [done|]. intros [(c & Hin & Hcode) _].
    assert (c ∈ filter (λ c, code_code c = code) codes) as Hf
      by (by apply list_elem_of_filter).
    rewrite Hc in Hf. by apply elem_of_nil in Hf.
  - split; [intros _|done]. split.
    + exists c.
      assert (c ∈ filter (λ c, code_code c = code) codes) as Hf
        by (rewrite Hc; by left).
      apply list_elem_of_filter in Hf. tauto.
    + intros u Hin Hid.
      assert (u ∈ filter (λ u, user_id u = usedBy) us) as Hf
        by (by apply list_elem_of_filter).
      rewrite Hu in Hf. by apply elem_of_nil in Hf.
  - split; [done|]. intros [_ Hnone]. exfalso.
    assert (u ∈ filter (λ u, user_id u = usedBy) us) as Hf
      by (rewrite Hu; by left).
    apply list_elem_of_filter in Hf as [Hid Hin]. by apply (Hnone u).
Qed.

Lemma getDoctorCodeByCode_used (now : Z) (code usedBy : string)
    (codes : list DoctorCode) (wanted : string) :
  getDoctorCodeByCode
    ((λ c, if decide (code_code c = code) then set_used now usedBy c else c)
     <$> codes) wanted
  = (λ c, if decide (code_code c = code) then set_used now usedBy c else c)
    <$> getDoctorCodeByCode codes wanted.
Proof.
  unfold getDoctorCodeByCode.
  rewrite filter_fmap_same; [by destruct (filter _ codes)|].
  intros c. by case_decide.
Qed.

(** X14. Once [markDoctorCodeAsUsed] has gone through for a code (the
    update is refused when the code is on record and [usedBy] is no user),
    no registration with that code is taken up any more, at whatever time
    and whatever the expiry date; registrations with any other code fare as
    before. *)
Theorem used_code_is_refused (us : list User) (now later : Z)
    (code usedBy : string) (body : DoctorRegistration)
    (codes codes' : list DoctorCode) (session : option PendingRegistration) :
  markDoctorCodeAsUsed us now code usedBy codes = Some codes' →
  (dr_doctorCode body = code →
   register_doctor later body codes' session
   = (Rejected 400 "Invalid or expired doctor code", session))
  ∧ (dr_doctorCode body ≠ code →
     register_doctor later body codes' session
     = register_doctor later body codes session).
Proof.
  intros ->%markDoctorCodeAsUsed_Some.
  unfold register_doctor. rewrite getDoctorCodeByCode_used.
  destruct (getDoctorCodeByCode codes (dr_doctorCode body)) as [c|] eqn:E.
  2: { by split. }
  assert (code_code c = dr_doctorCode body) as Hc.
  { apply head_Some_elem_of, list_elem_of_filter in E. tauto. }
  simpl. split; intros Hcode.
  - by rewrite decide_True by congruence.
  - by rewrite decide_False by congruence.
Qed.

(** X14 at work: Dr Hopper has signed up with the one code issued; a
    second sign-up quoting it, well before its expiry, is turned away. *)
Lemma used_code_is_refused_witness :
  ∃ codes',
    markDoctorCodeAsUsed [Fixture.grace] 200 "CARD-2025-AB12CD" "u-grace"
      Ward.issued = Some codes'
    ∧ (register_doctor 100 Ward.grace_signup Ward.issued None).1
      = RedirectToLogin
    ∧ register_doctor 300 Ward.grace_signup codes' None
      = (Rejected 400 "Invalid or expired doctor code", None).
Proof.
  eexists. split; [reflexivity|]. split; [reflexivity|].
  exact (proj1 (used_code_is_refused [Fixture.grace] 200 300
                  "CARD-2025-AB12CD" "u-grace" Ward.grace_signup
                  Ward.issued _ None eq_refl) eq_refl).
Defined.

(** X15. [getActiveDoctorCodes] lists, newest first, exactly the codes
    whose status is active, whatever their expiry date. So every code a
    registration is taken up with is on the list, while a code on the list
    whose expiry date has passed is refused. *)
Theorem active_codes_ignore_expiry (codes : list DoctorCode) :
  (∀ c, c ∈ getActiveDoctorCodes codes
        ↔ c ∈ codes ∧ code_status c = Some code_active)
  ∧ StronglySorted (newer_first code_createdAt) (getActiveDoctorCodes codes)
  ∧ (∀ now body session,
       (register_doctor now body codes session).1 = RedirectToLogin →
       ∃ c, c ∈ getActiveDoctorCodes codes
            ∧ code_code c = dr_doctorCode body)
  ∧ (∀ now body session c,
       getDoctorCodeByCode codes (dr_doctorCode body) = Some c →
       code_expiryDate c < now →
       register_doctor now body codes session
       = (Rejected 400 "Invalid or expired doctor code", session)).
Proof.
  assert (∀ c, c ∈ getActiveDoctorCodes codes
               ↔ c ∈ codes ∧ code_status c = Some code_active) as Hlisted.
  { intros c. unfold getActiveDoctorCodes.
    rewrite elem_of_order_by_desc, list_elem_of_filter. tauto. }
  split; [exact Hlisted|]. split; [apply order_by_desc_sorted|]. split.
  - intros now body session
      (c & Hc & Hs & _)%register_doctor_accepted%code_refused_false.
    exists c. apply head_Some_elem_of, list_elem_of_filter in Hc as [Hcode Hin].
    split; [by apply Hlisted|done].
  - intros now body session c Hc Hexp. unfold register_doctor.
    rewrite Hc. simpl.
    destruct (Z.gtb_spec now (code_expiryDate c)); [|lia].
    by rewrite orb_true_r.
Qed.

(** X16. A code the administrator creates (with no status given, or
    active) opens registration at once: until its expiry date a
    registration quoting the generated code is taken up. The code reads
    "CARD-", the year, "-", and the random digits in upper case; creation
    is refused when that code is already in the table, and it changes no
    record that was there. *)
Theorem created_code_admits_registration
    (now later : Z) (id : string) (year : Z) (random36 : string)
    (c : InsertDoctorCode) (codes codes' : list DoctorCode) (row : DoctorCode)
    (body : DoctorRegistration) (session : option PendingRegistration) :
  createDoctorCode now id year random36 c codes = Some (row, codes') →
  ins_c_status c = Absent ∨ ins_c_status c = Value code_active →
  dr_doctorCode body = code_code row →
  later ≤ ins_c_expiryDate c →
  code_code row
  = "CARD-" +:+ JS.interp_num year +:+ "-" +:+ JS.toUpperCase random36
  ∧ getDoctorCodeByCode codes (code_code row) = None
  ∧ codes' = codes ++ [row]
  ∧ (register_doctor later body codes' session).1 = RedirectToLogin.
Proof.
  unfold createDoctorCode.
  destruct (getDoctorCodeByCode codes (generated_code year random36))
    as [|] eqn:Hfree; [done|].
  intros [= <- <-] Hstatus Hbody Hlater. simpl in *.
  split; [done|]. split; [done|]. split; [done|].
  apply register_doctor_accepted, code_refused_false.
  eexists. split; [|split].
  - unfold getDoctorCodeByCode in *. rewrite filter_app, Hbody.
    apply head_filter_None in Hfree. rewrite Hfree. simpl.
    by rewrite filter_cons_True.
  - simpl. by destruct Hstatus as [-> | ->].
  - done.
Qed.

(** X16 at work: a code for Alan Turing,
    drawn in 2025 with the digits "k3x9qa", quoted at time 300. *)
Lemma created_code_admits_registration_witness :
  ∃ row codes',
    createDoctorCode 200 "c-2" 2025 "k3x9qa" Ward.new_code Ward.issued
    = Some (row, codes')
    ∧ code_code row = "CARD-2025-K3X9QA"
    ∧ (register_doctor 300
         {| dr_email := None; dr_firstName := Some "Alan";
            dr_lastName := Some "Turing"; dr_password := None;
            dr_doctorCode := "CARD-2025-K3X9QA";
            dr_medicalLicenseNumber := None; dr_specialty := None;
            dr_hospital := None |} codes' None).1
      = RedirectToLogin.
Proof.
  do 2 eexists. split; [reflexivity|].
  pose proof (created_code_admits_registration 200 300 "c-2" 2025 "k3x9qa"
                Ward.new_code Ward.issued _ _
                {| dr_email := None; dr_firstName := Some "Alan";
                   dr_lastName := Some "Turing"; dr_password := None;
                   dr_doctorCode := "CARD-2025-K3X9QA";
                   dr_medicalLicenseNumber := None; dr_specialty := None;
                   dr_hospital := None |} None
                eq_refl (or_introl eq_refl) eq_refl ltac:(simpl; lia)) as H.
  split; [exact (proj1 H)|exact (proj2 (proj2 (proj2 H)))].
Defined.

Lemma strict_eq_decide (v : option string) (lit : string) :
  JS.strict_eq v lit = bool_decide (v = Some lit).
Proof.
  destruct v as [s|]; simpl; [|done].
  destruct (String.eqb_spec s lit) as [->|Hne].
  - by rewrite bool_decide_eq_true_2.
  - rewrite bool_decide_eq_false_2; [done|congruence].
Qed.

(** X17. A patient registration is always taken up, and the session keeps
    at most one way to reach the patient: the e-mail address only when the
    preferred contact is "email", the mobile number only when it is
    "mobile", and neither when it is anything else or missing. The password
    is not kept. *)
Theorem patient_registration_keeps_one_contact (body : PatientRegistration) :
  ∃ email mobile,
    register_patient body
    = (RedirectToLogin,
       PendingPatient email mobile (pr_firstName body) (pr_lastName body))
    ∧ (email = None ∨ mobile = None)
    ∧ (email ≠ None →
       pr_preferredContact body = Some "email" ∧ email = pr_email body)
    ∧ (mobile ≠ None →
       pr_preferredContact body = Some "mobile"
       ∧ mobile = pr_mobileNumber body)
    ∧ (pr_preferredContact body ≠ Some "email" →
       pr_preferredContact body ≠ Some "mobile" →
       email = None ∧ mobile = None).
Proof.
  unfold register_patient. rewrite !strict_eq_decide.
  do 2 eexists. split; [reflexivity|].
  repeat case_bool_decide; repeat split; intros; congruence || tauto.
Qed.

End Registration.

(** ** Invariants of the running server *)

Section Invariants.
Import Schema Storage Routes Rows Props Run.

Lemma socket_events_db (ws : WebSocket) (userId : option string) (w : World) :
  db (ws_on_connection ws userId w) = db w
  ∧ db (ws_on_close ws w) = db w
  ∧ db (ws_on_error ws w) = db w.
Proof.
  unfold ws_on_connection, ws_on_close, ws_on_error. simpl.
  destruct (JS.truthy_str userId), (listeners w !! ws); done.
Qed.

Lemma alerts_resolve_frame (now : Z) (sub alertId : string) (w : World) :
  wsClients (alerts_resolve now sub alertId w).2 = wsClients w
  ∧ listeners (alerts_resolve now sub alertId w).2 = listeners w
  ∧ openSockets (alerts_resolve now sub alertId w).2 = openSockets w
  ∧ trace (alerts_resolve now sub alertId w).2 = trace w
  ∧ ecgReadings (db (alerts_resolve now sub alertId w).2)
    = ecgReadings (db w)
  ∧ (healthAlerts (db (alerts_resolve now sub alertId w).2)
     = healthAlerts (db w)
     ∨ ∃ who, healthAlerts (db (alerts_resolve now sub alertId w).2)
              = resolved_alerts now alertId who (healthAlerts (db w))).
Proof.
  unfold alerts_resolve. destruct (getUser (db w) sub) as [u|].
  - case_decide.
    + destruct (markAlertAsResolved now alertId (user_id u) (db w))
        as [d'|] eqn:E.
      * apply markAlertAsResolved_Some in E as ->. simpl.
        repeat split; try done. right. by eauto.
      * repeat split; try done. by left.
    + repeat split; try done. by left.
  - repeat split; try done. by left.
Qed.

Lemma registry_consistent_step (e : Event) (w : World) :
  admissible e w → registry_consistent w →
  registry_consistent (apply_event e w).
Proof.
  intros Hadm Hinv uid ws.
  destruct e as [s userId|s|s|s|now rid aid req|now sub aid]; simpl in *.
  - destruct Hadm as [Hnew Hclosed]. unfold ws_on_connection. simpl.
    destruct (JS.truthy_str userId) as [id|]; simpl; [|by apply Hinv].
    destruct (decide (id = uid)) as [->|Hne].
    + rewrite lookup_insert_eq. intros [= <-]. by rewrite lookup_insert_eq.
    + rewrite lookup_insert_ne by done. intros Hreg.
      rewrite lookup_insert_ne; [by apply Hinv|].
      intros ->. apply Hinv in Hreg. congruence.
  - by apply Hinv.
  - unfold ws_on_close.
    destruct (listeners w !! s) as [id|] eqn:Hs; simpl; [|by apply Hinv].
    destruct (decide (id = uid)) as [->|Hne].
    + by rewrite lookup_delete_eq.
    + rewrite lookup_delete_ne by done. by apply Hinv.
  - unfold ws_on_error.
    destruct (listeners w !! s) as [id|] eqn:Hs; simpl; [|by apply Hinv].
    destruct (decide (id = uid)) as [->|Hne].
    + by rewrite lookup_delete_eq.
    + rewrite lookup_delete_ne by done. by apply Hinv.
  - destruct (ecg_submit_keeps now rid aid req w)
      as (_ & _ & _ & -> & -> & _). by apply Hinv.
  - destruct (alerts_resolve_frame now sub aid w) as (-> & -> & _).
    by apply Hinv.
Qed.

Lemma listener_clears_its_socket (ws : WebSocket) (w : World) (uid : string) :
  registry_consistent w →
  (match listeners w !! ws with
   | Some id => delete id (wsClients w)
   | None => wsClients w
   end) !! uid ≠ Some ws.
Proof.
  intros Hinv. destruct (listeners w !! ws) as [id|] eqn:Hs.
  - destruct (decide (id = uid)) as [->|Hne].
    + by rewrite lookup_delete_eq.
    + rewrite lookup_delete_ne by done. intros Hreg%Hinv. congruence.
  - intros Hreg%Hinv. congruence.
Qed.

(** X18. In every state the server can reach (each connection bringing a
    socket of its own, a socket's [readyState] leaving [OPEN] at any time
    before its [close] is emitted), an entry of [wsClients] names a socket
    whose close and error listeners belong to that same identity. So the
    registry never holds one socket under two identities, and once the
    close or the error listener of a socket has run no entry names that
    socket. Between the [readyState] change and the listener the registry
    does hold a socket that is no longer open. *)
Theorem registry_entries_have_their_listeners (w : World) :
  reachable w →
  registry_consistent w
  ∧ (∀ uid1 uid2 ws,
       wsClients w !! uid1 = Some ws → wsClients w !! uid2 = Some ws →
       uid1 = uid2)
  ∧ (∀ ws uid, wsClients (ws_on_close ws w) !! uid ≠ Some ws)
  ∧ (∀ ws uid, wsClients (ws_on_error ws w) !! uid ≠ Some ws).
Proof.
  intros Hreach.
  assert (registry_consistent w) as Hinv.
  { induction Hreach as [us ps ss|w e _ IH Hadm].
    - intros uid ws. simpl. by rewrite lookup_empty.
    - by apply registry_consistent_step. }
  split; [done|]. split; [|split].
  - intros uid1 uid2 ws H1%Hinv H2%Hinv. congruence.
  - intros ws uid. unfold ws_on_close.
    pose proof (listener_clears_its_socket ws w uid Hinv) as H.
    by destruct (listeners w !! ws).
  - intros ws uid. unfold ws_on_error.
    pose proof (listener_clears_its_socket ws w uid Hinv) as H.
    by destruct (listeners w !! ws).
Qed.

Lemma two_tabs_reachable : reachable Fixture.two_tabs.
Proof.
  change Fixture.two_tabs
    with (apply_event (Connect 2%nat (Some "u-ada"))
            (apply_event (Connect 1%nat (Some "u-ada"))
               (initial [Fixture.ada; Fixture.grace] [Fixture.ada_patient]
                  []))).
  apply reachable_step; [apply reachable_step; [apply reachable_initial|]|].
  - split; [reflexivity|]. apply not_elem_of_empty.
  - split; [reflexivity|]. simpl.
    rewrite not_elem_of_union, not_elem_of_singleton.
    split; [discriminate|apply not_elem_of_empty].
Defined.

Lemma tab_going_away_reachable : reachable Ward.tab_going_away.
Proof.
  change Ward.tab_going_away
    with (apply_event (LeaveOpen 2%nat) Fixture.two_tabs).
  apply reachable_step; [exact two_tabs_reachable|exact I].
Defined.

(** X18 at work: Ada's second tab, the one on record, is going away. It is
    still on record though no longer open; its close listener clears the
    entry. *)
Lemma registry_entries_have_their_listeners_witness :
  reachable Ward.tab_going_away
  ∧ wsClients Ward.tab_going_away !! "u-ada" = Some 2%nat
  ∧ (2%nat ∉ openSockets Ward.tab_going_away)
  ∧ registry_consistent Ward.tab_going_away
  ∧ (∀ uid1 uid2 ws,
       wsClients Ward.tab_going_away !! uid1 = Some ws →
       wsClients Ward.tab_going_away !! uid2 = Some ws →
       uid1 = uid2)
  ∧ (∀ ws uid,
       wsClients (ws_on_close ws Ward.tab_going_away) !! uid ≠ Some ws)
  ∧ (∀ ws uid,
       wsClients (ws_on_error ws Ward.tab_going_away) !! uid ≠ Some ws).
Proof.
  split; [exact tab_going_away_reachable|].
  split; [reflexivity|]. split.
  { simpl. rewrite not_elem_of_difference. right. by apply elem_of_singleton. }
  exact (registry_entries_have_their_listeners Ward.tab_going_away
           tab_going_away_reachable).
Defined.








Lemma keeps_record_refl (a : HealthAlert) : keeps_record a a.
Proof. by repeat split. Qed.

Lemma keeps_record_trans (a b c : HealthAlert) :
  keeps_record a b → keeps_record b c → keeps_record a c.
Proof.
  unfold keeps_record.
  intros (?&?&?&?&?&?&?&?) (?&?&?&?&?&?&?&?).
  repeat split; try congruence. tauto.
Qed.

Lemma ecg_submit_alerts_app
    (now : Z) (readingId alertId : string) (req : SubmitBody) (w : World) :
  ∃ new, healthAlerts (db (ecg_submit now readingId alertId req w).2)
         = healthAlerts (db w) ++ new.
Proof.
  destruct (getPatientWithUser (db w) (body_patientId req)) as [p|] eqn:Hp.
  2: { exists []. unfold ecg_submit. by rewrite Hp, app_nil_r. }
  destruct (fits_int4 (body_heartRate req)) eqn:Hfits.
  2: { exists [].
       by rewrite (ecg_submit_refused now readingId alertId req w p Hp Hfits),
         app_nil_r. }
  destruct (isNormal (body_heartRate req) (body_rhythm req)) eqn:Hn.
  - exists []. rewrite app_nil_r. by eapply ecg_submit_normal.
  - eexists. by eapply ecg_submit_abnormal.
Qed.

Lemma alerts_persist_step (e : Event) (w : World) (i : nat) (a : HealthAlert) :
  healthAlerts (db w) !! i = Some a →
  ∃ a', healthAlerts (db (apply_event e w)) !! i = Some a'
        ∧ keeps_record a a'.
Proof.
  intros Hi.
  destruct e as [s userId|s|s|s|now rid aid req|now sub aid]; simpl.
  - destruct (socket_events_db s userId w) as (-> & _ & _).
    exists a. split; [done|apply keeps_record_refl].
  - exists a. split; [done|apply keeps_record_refl].
  - destruct (socket_events_db s None w) as (_ & -> & _).
    exists a. split; [done|apply keeps_record_refl].
  - destruct (socket_events_db s None w) as (_ & _ & ->).
    exists a. split; [done|apply keeps_record_refl].
  - destruct (ecg_submit_alerts_app now rid aid req w) as [new ->].
    exists a. split; [|apply keeps_record_refl].
    by apply lookup_app_l_Some.
  - destruct (alerts_resolve_frame now sub aid w)
      as (_ & _ & _ & _ & _ & [-> | [who ->]]).
    + exists a. split; [done|apply keeps_record_refl].
    + rewrite resolved_alerts_lookup, Hi. simpl.
      eexists. split; [done|]. case_decide; [|apply keeps_record_refl].
      by repeat split.
Qed.

(** X20. Whatever happens afterwards (connections, closes, errors,
    submissions, resolutions, in any number and order), an alert stays in
    the table, at its place, with its identifier, patient, reading, type,
    severity, message and creation time; and once resolved it stays
    resolved. *)
Theorem alerts_are_kept (events : list Event) (w : World) (i : nat)
    (a : HealthAlert) :
  healthAlerts (db w) !! i = Some a →
  ∃ a', healthAlerts (db (run events w)) !! i = Some a'
        ∧ keeps_record a a'.
Proof.
  revert w a. induction events as [|e events IH]; intros w a Hi.
  - exists a. split; [done|apply keeps_record_refl].
  - destruct (alerts_persist_step e w i a Hi) as (b & Hb & Hab).
    destruct (IH (apply_event e w) b Hb) as (c & Hc & Hbc).
    exists c. split; [done|]. by eapply keeps_record_trans.
Qed.

(** X20 at work: Ada's alert is resolved, a tab closes and a
    further reading arrives. *)
Lemma alerts_are_kept_witness :
  ∃ a, healthAlerts (db Fixture.world_after_alert) !! 0%nat = Some a
       ∧ ∃ a', healthAlerts
                 (db (run [Resolve 2000 "u-grace" "a-1"; Close 1%nat;
                           Submit 3000 "r-2" "a-2"
                             (Fixture.submission "p-ada" 30 None)]
                        Fixture.world_after_alert)) !! 0%nat = Some a'
               ∧ keeps_record a a'.
Proof.
  eexists. split; [reflexivity|].
  exact (alerts_are_kept
           [Resolve 2000 "u-grace" "a-1"; Close 1%nat;
            Submit 3000 "r-2" "a-2" (Fixture.submission "p-ada" 30 None)]
           Fixture.world_after_alert 0 _ eq_refl).
Defined.

End Invariants.

(** ** What a patient is shown *)

Section PatientView.
Import Schema Storage Routes Rows Props Queries Endpoints NotificationCenter.

Lemma getPatientByUserId_Some (d : Db) (userId : string) (p : Patient) :
  getPatientByUserId d userId = Some p →
  p ∈ patients d ∧ patient_userId p = userId.
Proof.
  unfold getPatientByUserId.
  intros H%head_Some_elem_of%list_elem_of_filter. tauto.
Qed.

Lemma as_patient_Json {A : Type} (sub : string) (w : World)
    (k : Patient → Reply A * World) (a : A) :
  (as_patient sub w k).1 = Json a →
  ∃ caller own,
    getUser (db w) sub = Some caller
    ∧ user_role caller = patient_role
    ∧ getPatientByUserId (db w) (user_id caller) = Some own
    ∧ as_patient sub w k = k own.
Proof.
  unfold as_patient. destruct (getUser (db w) sub) as [u|]; [|done].
  case_decide; [|done].
  destruct (getPatientByUserId (db w) (user_id u)) as [p|] eqn:Hp; [|done].
  intros _. by exists u, p.
Qed.

(** X21. The two reading endpoints for patients answer only a caller whose
    user has role patient and a patient record, change nothing, and show
    that record's data alone: at most 50 readings, all stored under the
    caller's patient id, and exactly the alerts stored under it. *)
Theorem patient_is_shown_own_records (sub : string) (w : World) :
  (patient_ecg_readings sub w).2 = w
  ∧ (patient_alerts sub w).2 = w
  ∧ (∀ readings, (patient_ecg_readings sub w).1 = Json readings →
       ∃ caller own,
         getUser (db w) sub = Some caller
         ∧ user_role caller = patient_role
         ∧ own ∈ patients (db w)
         ∧ patient_userId own = user_id caller
         ∧ (length readings ≤ 50)%nat
         ∧ ∀ r, r ∈ readings →
             r ∈ ecgReadings (db w) ∧ reading_patientId r = patient_id own)
  ∧ (∀ alerts, (patient_alerts sub w).1 = Json alerts →
       ∃ caller own,
         getUser (db w) sub = Some caller
         ∧ user_role caller = patient_role
         ∧ own ∈ patients (db w)
         ∧ patient_userId own = user_id caller
         ∧ ∀ a, a ∈ alerts
             ↔ a ∈ healthAlerts (db w) ∧ alert_patientId a = patient_id own).
Proof.
  split; [|split; [|split]].
  - unfold patient_ecg_readings, as_patient.
    destruct (getUser (db w) sub); [|done]. case_decide; [|done].
    by destruct (getPatientByUserId _ _).
  - unfold patient_alerts, as_patient.
    destruct (getUser (db w) sub); [|done]. case_decide; [|done].
    by destruct (getPatientByUserId _ _).
  - intros readings H. unfold patient_ecg_readings in *.
    destruct (as_patient_Json _ _ _ _ H) as (caller & own & Hu & Hr & Hp & E).
    rewrite E in H. simpl in H. injection H as <-.
    apply getPatientByUserId_Some in Hp as [Hin Huid].
    exists caller, own. do 4 (split; [done|]). split.
    + unfold getLatestEcgReadings. rewrite length_take. lia.
    + intros r Hin'. unfold getLatestEcgReadings in Hin'.
      apply elem_of_take in Hin' as (i & Hi%list_elem_of_lookup_2 & _).
      apply elem_of_order_by_desc, list_elem_of_filter in Hi. tauto.
  - intros alerts H. unfold patient_alerts in *.
    destruct (as_patient_Json _ _ _ _ H) as (caller & own & Hu & Hr & Hp & E).
    rewrite E in H. simpl in H. injection H as <-.
    apply getPatientByUserId_Some in Hp as [Hin Huid].
    exists caller, own. do 4 (split; [done|]).
    intros a. unfold getAlertsByPatientId.
    rewrite elem_of_order_by_desc, list_elem_of_filter. tauto.
Qed.

Lemma onmessage_length (data : Incoming) (prev : list Notification) :
  (length prev ≤ 20)%nat → (length (onmessage data prev) ≤ 20)%nat.
Proof.
  destruct data as [m|]; simpl; [|done]. rewrite length_take. lia.
Qed.

Lemma act_length (a : Action) (prev : list Notification) :
  (length prev ≤ 20)%nat → (length (act a prev) ≤ 20)%nat.
Proof.
  intros H. destruct a as [data|id| |id]; simpl.
  - by apply onmessage_length.
  - unfold markAsRead. by rewrite length_fmap.
  - unfold markAllAsRead. by rewrite length_fmap.
  - unfold removeNotification.
    pose proof (length_filter (λ n, n_id n ≠ id) prev). lia.
Qed.

(** X22. The notification list of the client never grows beyond 20
    entries, whatever arrives and whatever the user clicks: an incoming
    alert goes to the front and only the 19 entries before it are kept,
    read or not. The list the component starts with is within the bound. *)
Theorem inbox_holds_at_most_twenty (actions : list Action)
    (prev : list Notification) :
  (length prev ≤ 20)%nat →
  (length (foldl (λ l a, act a l) prev actions) ≤ 20)%nat
  ∧ (∀ m, onmessage (HealthAlertPayload m) prev
          = newNotification m :: take 19 prev
          ∧ length (onmessage (HealthAlertPayload m) prev)
            = (20 `min` S (length prev))%nat
          ∧ (unreadCount (onmessage (HealthAlertPayload m) prev)
             ≤ S (unreadCount prev))%nat).
Proof.
  intros Hlen. split.
  - revert prev Hlen. induction actions as [|a actions IH]; intros prev Hlen.
    + done.
    + simpl. apply IH. by apply act_length.
  - intros m. split; [done|]. split.
    + change (onmessage (HealthAlertPayload m) prev)
        with (newNotification m :: take 19 prev).
      rewrite length_cons, length_take. lia.
    + change (onmessage (HealthAlertPayload m) prev)
        with (newNotification m :: take 19 prev).
      unfold unreadCount. rewrite filter_cons_True by done.
      rewrite length_cons. apply le_n_S.
      rewrite <- (take_drop 19 prev) at 2. rewrite filter_app, length_app.
      lia.
Qed.

(** X22 at work: after twenty alerts the list is full and the two demo
    entries are gone; the next alert takes the front and pushes out the
    oldest one, [a-1]. *)
Lemma inbox_holds_at_most_twenty_witness :
  (length Ward.full_inbox ≤ 20)%nat
  ∧ length Ward.full_inbox = 20%nat
  ∧ n_id <$> last Ward.full_inbox = Some "alert-a-1"
  ∧ n_id <$> last (onmessage (HealthAlertPayload (Ward.alarm "a-21" 21))
                     Ward.full_inbox) = Some "alert-a-2"
  ∧ n_id <$> head (onmessage (HealthAlertPayload (Ward.alarm "a-21" 21))
                     Ward.full_inbox) = Some "alert-a-21"
  ∧ (length (foldl (λ l a, act a l) Ward.full_inbox
               [Receive (HealthAlertPayload (Ward.alarm "a-21" 21));
                MarkAsRead "alert-a-21"; Receive OtherData;
                Receive (HealthAlertPayload (Ward.alarm "a-22" 22))])
     ≤ 20)%nat
  ∧ (∀ m, onmessage (HealthAlertPayload m) Ward.full_inbox
          = newNotification m :: take 19 Ward.full_inbox
          ∧ length (onmessage (HealthAlertPayload m) Ward.full_inbox)
            = (20 `min` S (length Ward.full_inbox))%nat
          ∧ (unreadCount (onmessage (HealthAlertPayload m) Ward.full_inbox)
             ≤ S (unreadCount Ward.full_inbox))%nat).
Proof.
  assert (length Ward.full_inbox ≤ 20)%nat as H by (vm_compute; lia).
  split; [exact H|]. split; [reflexivity|]. split; [reflexivity|].
  split; [reflexivity|]. split; [reflexivity|].
  exact (inbox_holds_at_most_twenty
           [Receive (HealthAlertPayload (Ward.alarm "a-21" 21));
            MarkAsRead "alert-a-21"; Receive OtherData;
            Receive (HealthAlertPayload (Ward.alarm "a-22" 22))]
           Ward.full_inbox H).
Defined.

(** X23. Marking and removing in the client. "Mark all as read" keeps
    every entry where it is, with its identifier, type, title, message,
    time and severity, and sets its read flag; marking one identifier does
    the same to the entries of that identifier and leaves the others as
    they are, so the unread entries left are the unread ones of other
    identifiers, in their order. Removing an identifier deletes all entries
    that carry it and no other, the rest keeping their order. *)
Theorem inbox_marks_and_removes (notificationId : string)
    (prev : list Notification) :
  Forall2 (λ before after, same_but_read before after ∧ n_read after = true)
    prev (markAllAsRead prev)
  ∧ Forall2 (λ before after,
               same_but_read before after
               ∧ n_read after
                 = if decide (n_id before = notificationId) then true
                   else n_read before)
      prev (markAsRead notificationId prev)
  ∧ unreadCount (markAllAsRead prev) = 0%nat
  ∧ filter (λ n, n_read n = false) (markAsRead notificationId prev)
    = filter (λ n, n_read n = false ∧ n_id n ≠ notificationId) prev
  ∧ removeNotification notificationId prev
    = filter (λ n, n_id n ≠ notificationId) prev
  ∧ (∀ n, n ∈ removeNotification notificationId prev
          ↔ n ∈ prev ∧ n_id n ≠ notificationId)
  ∧ removeNotification notificationId prev `sublist_of` prev
  ∧ unreadCount (markAsRead notificationId prev)
    = unreadCount (removeNotification notificationId prev)
  ∧ (unreadCount (markAsRead notificationId prev) ≤ unreadCount prev)%nat.
Proof.
  assert (filter (λ n, n_read n = false) (markAsRead notificationId prev)
          = filter (λ n, n_read n = false ∧ n_id n ≠ notificationId) prev)
    as Hunread.
  { unfold markAsRead.
    induction prev as [|n prev IH]; [done|].
    rewrite fmap_cons, !filter_cons, IH.
    destruct (decide (n_id n = notificationId)) as [Hid|Hid].
    - rewrite decide_False by (simpl; discriminate).
      by rewrite decide_False by tauto.
    - destruct (decide (n_read n = false)) as [Hr|Hr].
      + by rewrite decide_True by done.
      + by rewrite decide_False by tauto. }
  assert (unreadCount (markAsRead notificationId prev)
          = unreadCount (removeNotification notificationId prev)) as Hmark.
  { unfold unreadCount. rewrite Hunread. unfold removeNotification.
    f_equal. clear Hunread.
    induction prev as [|n prev IH]; [done|].
    rewrite (filter_cons (λ n, n_id n ≠ notificationId)), filter_cons.
    destruct (decide (n_id n ≠ notificationId)) as [Hid|Hid].
    - rewrite filter_cons.
      destruct (decide (n_read n = false)) as [Hr|Hr].
      + rewrite decide_True by done. by rewrite IH.
      + by rewrite decide_False by tauto.
    - by rewrite decide_False by tauto. }
  split; [|split; [|split; [|split; [done|split; [done|split;
    [|split; [|split; [done|]]]]]]]].
  - unfold markAllAsRead.
    apply Forall2_fmap_r, Forall_Forall2_diag, Forall_forall.
    intros n _. by repeat split.
  - unfold markAsRead.
    apply Forall2_fmap_r, Forall_Forall2_diag, Forall_forall.
    intros n _. simpl. case_decide; by repeat split.
  - unfold unreadCount, markAllAsRead.
    rewrite (filter_none _ (set_read <$> prev)); [done|].
    by intros n (n0 & -> & _)%list_elem_of_fmap.
  - intros n. unfold removeNotification. rewrite list_elem_of_filter. tauto.
  - apply sublist_filter.
  - rewrite Hmark. clear Hmark Hunread.
    unfold unreadCount, removeNotification.
    induction prev as [|n prev IH]; [done|].
    rewrite (filter_cons (λ n, n_id n ≠ notificationId)).
    destruct (decide (n_id n ≠ notificationId));
      rewrite !filter_cons; destruct (decide (n_read n = false));
      simpl; lia.
Qed.

(** X23 at work: of the component's two demo entries only the first is
    unread; marking it leaves none unread and both entries in place. *)
Example inbox_marks_demo :
  markAsRead "demo-1" (initialNotifications 0)
  = markAllAsRead (initialNotifications 0)
  ∧ unreadCount (initialNotifications 0) = 1%nat
  ∧ unreadCount (markAsRead "demo-1" (initialNotifications 0)) = 0%nat
  ∧ unreadCount (markAsRead "demo-2" (initialNotifications 0)) = 1%nat
  ∧ n_id <$> removeNotification "demo-1" (initialNotifications 0)
    = ["demo-2"].
Proof. by repeat split. Qed.

(** X24. From the device to the patient's screen: when the patient's socket
    is registered and open, an abnormal submission that is stored (heart
    rate within the integer column) writes to it a payload
    carrying the alert just stored, and the client, on receiving it, puts
    at the head of its list an unread notification with the identifier
    "alert-" followed by the alert's, the alert's message and severity, and
    the alert's creation time. *)
Theorem alert_reaches_patient_inbox
    (now : Z) (readingId alertId : string) (req : SubmitBody) (w : World)
    (patient : PatientWithUser) (ws : WebSocket) (prev : list Notification) :
  getPatientWithUser (db w) (body_patientId req) = Some patient →
  fits_int4 (body_heartRate req) = true →
  isNormal (body_heartRate req) (body_rhythm req) = false →
  reachable_socket w (patient_userId (pw_patient patient)) = [ws] →
  ∃ new m rest n,
    trace (ecg_submit now readingId alertId req w).2 = trace w ++ new
    ∧ pushes new = (ws, m) :: rest
    ∧ healthAlerts (db (ecg_submit now readingId alertId req w).2)
      = healthAlerts (db w) ++ [msg_alert m]
    ∧ head (onmessage (HealthAlertPayload m) prev) = Some n
    ∧ n_id n = "alert-" +:+ alertId
    ∧ n_read n = false
    ∧ n_message n = alert_message (msg_alert m)
    ∧ n_severity n = Some (alert_severity (msg_alert m))
    ∧ n_timestamp n = now.
Proof.
  intros Hfound Hfits Hab Hws.
  destruct (ecg_submit_abnormal_trace now readingId alertId req w patient
              Hfound Hfits Hab)
    as (m & tp & td & Hm1 & Hm2 & Hp & Hd & Hno & ->).
  eexists. exists m, (pushes td). eexists. split; [done|]. split.
  - unfold pushes in *. rewrite !omap_app, Hp, Hws.
    by destruct (_ || _).
  - split; [rewrite Hm1; by eapply ecg_submit_abnormal|].
    split; [reflexivity|]. simpl. by rewrite Hm1.
Qed.

(** X24 at work: Ada's second tab holds the
    registration when her device reports 150 BPM. *)
Lemma alert_reaches_patient_inbox_witness :
  getPatientWithUser (db Fixture.two_tabs) "p-ada" = Some Fixture.ada_record
  ∧ fits_int4 150 = true
  ∧ isNormal 150 (Some "normal") = false
  ∧ reachable_socket Fixture.two_tabs "u-ada" = [2%nat]
  ∧ ∃ new m rest n,
      trace (ecg_submit 1000 "r-1" "a-1"
               (Fixture.submission "p-ada" 150 (Some "normal"))
               Fixture.two_tabs).2
      = trace Fixture.two_tabs ++ new
      ∧ pushes new = (2%nat, m) :: rest
      ∧ healthAlerts
          (db (ecg_submit 1000 "r-1" "a-1"
                 (Fixture.submission "p-ada" 150 (Some "normal"))
                 Fixture.two_tabs).2)
        = healthAlerts (db Fixture.two_tabs) ++ [msg_alert m]
      ∧ head (onmessage (HealthAlertPayload m) (initialNotifications 1000))
        = Some n
      ∧ n_id n = "alert-a-1"
      ∧ n_read n = false
      ∧ n_message n = alert_message (msg_alert m)
      ∧ n_severity n = Some (alert_severity (msg_alert m))
      ∧ n_timestamp n = 1000.
Proof.
  split; [reflexivity|]. split; [reflexivity|]. split; [reflexivity|].
  split; [reflexivity|].
  exact (alert_reaches_patient_inbox 1000 "r-1" "a-1"
           (Fixture.submission "p-ada" 150 (Some "normal"))
           Fixture.two_tabs Fixture.ada_record 2%nat
           (initialNotifications 1000) eq_refl eq_refl eq_refl eq_refl).
Defined.

End PatientView.
